(** * The section-based configuration registry of [nipype/config/__init__.py]

    A shallow embedding of the module: the abstract class [_Config] with its
    class methods [load] and [get], the four section classes ([logging],
    [execution], [monitoring], [check]), the merge of the settings file done
    at import time, the serialisation [__str__] and the logging bootstrap
    [update].

    Class attributes live in the class namespace ([cls.__dict__]), an
    insertion-ordered dictionary: it is an association list here, because
    [get] iterates over it and [load] iterates over the override dictionary
    in order, with effects that depend on that order. *)

From Stdlib Require Import String Ascii List ZArith Bool Lia DecimalString.
Import ListNotations.
Set Warnings "-register-all".
Local Open Scope string_scope.

(** ** POSIX paths as [pathlib] parses them *)

Module PosixPath.

(** The root of a parsed path: none, [/], or the [//] that POSIX keeps apart. *)
Inductive root := Relative | Slash | DoubleSlash.

Record t := mk { anchor : root; parts : list string }.

(** [s.split("/")]. *)
Fixpoint split_sep (s : string) : list string :=
  match s with
  | EmptyString => [EmptyString]
  | String c s' =>
      if Ascii.eqb c "/" then EmptyString :: split_sep s'
      else match split_sep s' with
           | [] => [String c EmptyString]
           | w :: ws => String c w :: ws
           end
  end.

(** [s.lstrip("/")]. *)
Fixpoint lstrip_sep (s : string) : string :=
  match s with
  | String c s' => if Ascii.eqb c "/" then lstrip_sep s' else s
  | EmptyString => s
  end.

(** [posixpath.splitroot]: exactly two leading slashes make the root [//],
    any other positive number of them the root [/]. *)
Definition splitroot (s : string) : root * string :=
  match s with
  | String c _ =>
      if Ascii.eqb c "/" then
        let rel := lstrip_sep s in
        if Nat.eqb (String.length s - String.length rel) 2
        then (DoubleSlash, rel) else (Slash, rel)
      else (Relative, s)
  | EmptyString => (Relative, s)
  end.

(** The components the parser keeps: [x and x != "."]. *)
Definition keep (x : string) : bool := negb (x =? "") && negb (x =? ".").

(** [Path(s)] for a string [s]. *)
Definition parse (s : string) : t :=
  let (r, rel) := splitroot s in mk r (filter keep (split_sep rel)).

Definition is_absolute (p : t) : bool :=
  match anchor p with Relative => false | _ => true end.

Definition root_string (r : root) : string :=
  match r with Relative => "" | Slash => "/" | DoubleSlash => "//" end.

(** [str(p)]. *)
Definition to_string (p : t) : string :=
  match anchor p, parts p with
  | Relative, [] => "."
  | r, ps => root_string r ++ String.concat "/" ps
  end.

(** [p / q]: an absolute right operand replaces the left one. *)
Definition join (p q : t) : t :=
  if is_absolute q then q else mk (anchor p) (parts p ++ parts q).

(** [p.absolute()] when [os.getcwd()] is [cwd]: the working directory is put
    in front of a relative path; nothing else is rewritten. *)
Definition absolute (cwd : string) (p : t) : t :=
  if is_absolute p then p else join (parse cwd) p.

(** Lexical normal form in the sense of [os.path.normpath]: no empty
    component, no [.] and no [..]. *)
Definition normal_part (x : string) : bool := keep x && negb (x =? "..").

Definition normalized (p : t) : bool := forallb normal_part (parts p).

End PosixPath.

(** ** Values, exceptions and results *)

(** The Python objects a setting can hold in this model.  [VFun] stands for
    an opaque callable object (a function, a bound method). *)
Inductive value :=
| VNone
| VBool (b : bool)
| VInt (z : Z)
| VStr (s : string)
| VPath (p : PosixPath.t)
| VTuple (l : list value)
| VList (l : list value)
| VFun (name : string).

Inductive exn := TypeError | AttributeError | ValueError | OSError.

(** The result of running a piece of the module: a value, an exception, or
    control leaving the module for code that is not modelled (an opaque
    callable, an object of another module). *)
Inductive result (A : Type) :=
| Ok (a : A)
| Raise (e : exn)
| Escapes (what : string).
Arguments Ok {A} a.
Arguments Raise {A} e.
Arguments Escapes {A} what.

(** Stateful code: the state reached is returned also when an exception
    interrupts the run, since assignments made before it stay in place. *)
Definition M (S A : Type) : Type := S -> S * result A.

Definition ret {S A} (a : A) : M S A := fun s => (s, Ok a).

Definition bind {S A B} (m : M S A) (f : A -> M S B) : M S B :=
  fun s =>
    match m s with
    | (s', Ok a) => f a s'
    | (s', Raise e) => (s', Raise e)
    | (s', Escapes w) => (s', Escapes w)
    end.

Definition lift {S A} (r : result A) : M S A := fun s => (s, r).

Definition gets {S A} (f : S -> A) : M S A := fun s => (s, Ok (f s)).

Declare Scope py_scope.
Delimit Scope py_scope with py.
Notation "x <- m ;; k" := (bind m (fun x => k))
  (at level 61, m at next level, right associativity) : py_scope.
Notation "m ;;; k" := (bind m (fun _ => k))
  (at level 61, right associativity) : py_scope.
Local Open Scope py_scope.

(** [for x in l: f(x)]. *)
Fixpoint for_each {S A} (f : A -> M S unit) (l : list A) : M S unit :=
  match l with
  | [] => ret tt
  | a :: rest => f a ;;; for_each f rest
  end.

Definition is_none (v : value) : bool :=
  match v with VNone => true | _ => false end.

Definition callable (v : value) : bool :=
  match v with VFun _ => true | _ => false end.

(** ** What the interpreter and the operating system supply *)

(** What [type.__setattr__] does with a name: store the value in the class
    namespace, hand it to a descriptor of the metaclass that keeps it
    elsewhere ([__name__]), or refuse it ([__dict__], [__mro__]). *)
Inductive set_effect := Store | Absorb | Reject (e : exn).

(** The environment of the module.  Every attribute that the interpreter
    itself supplies on a class or on a module has a name starting with two
    underscores, except the method [mro] of classes; which of those names
    exist, and what assigning to them does, depends on the interpreter
    version and is left open. *)
Record runtime := {
  getcwd : string;                               (* os.getcwd() *)
  home_dir : string;                             (* str(Path.home()) *)
  config_dir_env : option string;                (* os.getenv("NIPYPE_CONFIG_DIR") *)
  class_dunder : string -> bool;                 (* resolved through object and type *)
  type_setattr : string -> value -> set_effect;  (* assigning a double-underscore name *)
  module_dunder : string -> bool;                (* resolved on every module object *)
  repr_other : value -> string;                  (* str() of a sequence or callable *)
  can_open : string -> bool                      (* open(filename, "a") succeeds *)
}.

(** ** Dictionaries *)

Definition namespace := list (string * value).

Fixpoint lookup (k : string) (ns : namespace) : option value :=
  match ns with
  | [] => None
  | (k', v) :: rest => if k' =? k then Some v else lookup k rest
  end.

(** [d[k] = v]: an existing key keeps its position, a new one goes last. *)
Fixpoint dict_set (k : string) (v : value) (ns : namespace) : namespace :=
  match ns with
  | [] => [(k, v)]
  | (k', v') :: rest =>
      if k' =? k then (k, v) :: rest else (k', v') :: dict_set k v rest
  end.

Definition keys (ns : namespace) : list string := map fst ns.

(** ** The class [_Config] *)

(** The namespace of [_Config] itself: what its class body binds. *)
Definition Config_ns : namespace :=
  [ ("__module__", VStr "nipype.config");
    ("__doc__", VStr "An abstract class forbidding instantiation.");
    ("_paths", VTuple []);
    ("__init__", VFun "_Config.__init__");
    ("load", VFun "_Config.load");
    ("get", VFun "_Config.get") ].

Section Registry.

Context (R : runtime).

(** An attribute found on a section class: bound by the section or by
    [_Config], or supplied by the interpreter. *)
Inductive attr := Bound (v : value) | Builtin.

Definition interp_has (k : string) : bool :=
  (k =? "mro") || (prefix "__" k && class_dunder R k).

(** [getattr(cls, k)] for a subclass [cls] of [_Config] with namespace [ns]:
    the class itself, then [_Config], then [object] and [type]. *)
Definition class_getattr (ns : namespace) (k : string) : option attr :=
  match lookup k ns with
  | Some v => Some (Bound v)
  | None =>
      match lookup k Config_ns with
      | Some v => Some (Bound v)
      | None => if interp_has k then Some Builtin else None
      end
  end.

Definition py_hasattr (ns : namespace) (k : string) : bool :=
  match class_getattr ns k with Some _ => true | None => false end.

(** [cls.k] read as a value. *)
Definition getattr_value (ns : namespace) (k : string) : result value :=
  match class_getattr ns k with
  | Some (Bound v) => Ok v
  | Some Builtin => Escapes k
  | None => Raise AttributeError
  end.

(** [setattr(cls, k, v)]. *)
Definition py_setattr (k : string) (v : value) : M namespace unit :=
  fun ns =>
    if prefix "__" k then
      match type_setattr R k v with
      | Store => (dict_set k v ns, Ok tt)
      | Absorb => (ns, Ok tt)
      | Reject e => (ns, Raise e)
      end
    else (dict_set k v ns, Ok tt).

Definition is_str (k : string) (v : value) : bool :=
  match v with VStr s => s =? k | _ => false end.

(** [k in c] for a string [k]: membership by [==] in a tuple or list, the
    substring test in a string, [TypeError] for an object that is no
    container. *)
Definition py_contains (k : string) (c : value) : result bool :=
  match c with
  | VTuple l | VList l => Ok (existsb (is_str k) l)
  | VStr s => Ok (match index 0 k s with Some _ => true | None => false end)
  | _ => Raise TypeError
  end.

(** [Path(v)]. *)
Definition Path_of (v : value) : result PosixPath.t :=
  match v with
  | VStr s => Ok (PosixPath.parse s)
  | VPath p => Ok p
  | _ => Raise TypeError
  end.

(** [str(v)]. *)
Definition py_str (v : value) : string :=
  match v with
  | VNone => "None"
  | VBool true => "True"
  | VBool false => "False"
  | VInt z => NilZero.string_of_int (Z.to_int z)
  | VStr s => s
  | VPath p => PosixPath.to_string p
  | VTuple _ | VList _ | VFun _ => repr_other R v
  end.

(** [k in cls._paths]. *)
Definition in_paths (ns : namespace) (k : string) : result bool :=
  match getattr_value ns "_paths" with
  | Ok c => py_contains k c
  | Raise e => Raise e
  | Escapes w => Escapes w
  end.

(** One turn of the loop of [load]. *)
Definition load_item (kv : string * value) : M namespace unit :=
  let (k, v) := kv in
  if is_none v then ret tt
  else
    b <- (fun ns => (ns, in_paths ns k)) ;;
    if b then
      p <- lift (Path_of v) ;;
      py_setattr k (VPath (PosixPath.absolute (getcwd R) p))
    else
      h <- gets (fun ns => py_hasattr ns k) ;;
      if h then py_setattr k v else ret tt.

(** [cls.init()] under [except AttributeError: pass]. *)
Definition call_init : M namespace unit :=
  fun ns =>
    match class_getattr ns "init" with
    | None => (ns, Ok tt)
    | Some (Bound v) =>
        if callable v then (ns, Escapes "init") else (ns, Raise TypeError)
    | Some Builtin => (ns, Escapes "init")
    end.

(** [_Config.load(settings, init)] on the class with namespace [ns]. *)
Definition load (settings : namespace) (init : bool) : M namespace unit :=
  for_each load_item settings ;;;
  if init then call_init else ret tt.

(** One turn of the loop of [get], [out] being the dictionary built so far. *)
Definition get_item (ns out : namespace) (kv : string * value)
  : result namespace :=
  let (k, v) := kv in
  if prefix "_" k || is_none v then Ok out
  else if callable v then Ok out
  else
    match in_paths ns k with
    | Ok b => Ok (dict_set k (if b then VStr (py_str v) else v) out)
    | Raise e => Raise e
    | Escapes w => Escapes w
    end.

Fixpoint get_loop (ns out : namespace) (items : namespace)
  : result namespace :=
  match items with
  | [] => Ok out
  | kv :: rest =>
      match get_item ns out kv with
      | Ok out' => get_loop ns out' rest
      | Raise e => Raise e
      | Escapes w => Escapes w
      end
  end.

(** [_Config.get()] on the class with namespace [ns]. *)
Definition get (ns : namespace) : result namespace := get_loop ns [] ns.

(** ** The four sections *)

(** Executing a class body: its assignments, in order. *)
Definition class_body (stmts : namespace) : namespace :=
  fold_left (fun ns kv => dict_set (fst kv) (snd kv) ns) stmts [].

(** [_nipype_home]. *)
Definition nipype_home : PosixPath.t :=
  PosixPath.absolute (getcwd R)
    (PosixPath.parse
       (match config_dir_env R with
        | Some d => d
        | None =>
            PosixPath.to_string
              (PosixPath.join (PosixPath.parse (home_dir R))
                              (PosixPath.parse ".nipype"))
        end)).

(** [str(_nipype_home / "log")]. *)
Definition home_log : value :=
  VStr (PosixPath.to_string
          (PosixPath.join nipype_home (PosixPath.parse "log"))).

Definition logging_body : namespace :=
  [ ("__module__", VStr "nipype.config");
    ("__doc__", VStr "The logging section.");
    ("interface_level", VStr "INFO");
    ("log_directory", home_log);
    ("log_rotate", VInt 4);
    ("log_size", VInt 16384000);
    ("log_to_file", VBool false);
    ("utils_level", VStr "INFO");
    ("workflow_level", VStr "INFO") ].

Definition execution_body : namespace :=
  [ ("__module__", VStr "nipype.config");
    ("__doc__", VStr "The execution section.");
    ("check_version", VBool true);
    ("crashdump_dir", home_log);
    ("crashfile_format", VStr "pklz");
    ("create_report", VBool true);
    ("hash_method", VStr "timestamp");
    ("job_finished_timeout", VInt 5);
    ("keep_inputs", VBool false);
    ("local_hash_check", VBool true);
    ("matplotlib_backend", VStr "Agg");
    ("parameterize_dirs", VBool true);
    ("plugin", VStr "Linear");
    ("poll_sleep_duration", VInt 2);
    ("remove_node_directories", VBool false);
    ("remove_unnecessary_outputs", VBool true);
    ("single_thread_matlab", VBool true);
    ("stop_on_first_crash", VBool false);
    ("stop_on_first_rerun", VBool false);
    ("stop_on_unknown_version", VBool false);
    ("try_hard_link_datasink", VBool true);
    ("use_relative_paths", VBool false);
    ("write_provenance", VBool false);
    ("xvfb_max_wait", VInt 10);
    ("_cwd", VPath (PosixPath.absolute (getcwd R)
                      (PosixPath.parse (getcwd R)))) ].

Definition monitoring_body : namespace :=
  [ ("__module__", VStr "nipype.config");
    ("__doc__", VStr "The monitoring section.");
    ("enabled", VBool false);
    ("sample_frequency", VInt 1);
    ("summary_append", VBool true) ].

Definition check_body : namespace :=
  [ ("__module__", VStr "nipype.config");
    ("__doc__", VStr "The check section.");
    ("interval", VInt 1209600) ].

Inductive section := Logging | Execution | Monitoring | Check.

Definition section_name (s : section) : string :=
  match s with
  | Logging => "logging"
  | Execution => "execution"
  | Monitoring => "monitoring"
  | Check => "check"
  end.

Definition body (s : section) : namespace :=
  match s with
  | Logging => logging_body
  | Execution => execution_body
  | Monitoring => monitoring_body
  | Check => check_body
  end.

(** The settings a section declares, with their defaults: the assignments of
    its class body other than [__module__] and [__doc__]. *)
Definition settings_of (s : section) : namespace := skipn 2 (body s).

(** The class namespaces of the four sections: the state of the registry. *)
Record registry := {
  logging : namespace;
  execution : namespace;
  monitoring : namespace;
  check : namespace
}.

(** The registry once the four class statements have run. *)
Definition declared : registry :=
  {| logging := class_body logging_body;
     execution := class_body execution_body;
     monitoring := class_body monitoring_body;
     check := class_body check_body |}.

Definition ns_of (r : registry) (s : section) : namespace :=
  match s with
  | Logging => logging r
  | Execution => execution r
  | Monitoring => monitoring r
  | Check => check r
  end.

Definition with_ns (r : registry) (s : section) (ns : namespace) : registry :=
  match s with
  | Logging =>
      {| logging := ns; execution := execution r;
         monitoring := monitoring r; check := check r |}
  | Execution =>
      {| logging := logging r; execution := ns;
         monitoring := monitoring r; check := check r |}
  | Monitoring =>
      {| logging := logging r; execution := execution r;
         monitoring := ns; check := check r |}
  | Check =>
      {| logging := logging r; execution := execution r;
         monitoring := monitoring r; check := ns |}
  end.

(** ** The settings file *)

(** A parsed settings file: section names mapped to tables.  Reading the
    file and the TOML codec ([loads], [dumps]) belong to other libraries and
    are not modelled: a document stands for the mapping they exchange with
    this module. *)
Definition document := list (string * namespace).

(** What [getattr(sys.modules[__name__], name)] finds while the file is being
    merged: a section class, or another object bound in the module by then.
    [__str__] and [update] are defined after the merge. *)
Inductive module_attr := Sect (s : section) | Foreign (name : string).

(** The merge runs at the top level of the module, so the variables of its
    two loops are attributes of the module as well: [sectionname] and
    [settings] from the first turn on, [section] once a lookup has
    succeeded, [key] and [value] once an inner loop has run. *)
Record merging := {
  reg : registry;
  var_section : option module_attr;   (* what [section] is bound to *)
  var_key : bool                      (* whether [key] and [value] are bound *)
}.

Definition begin_merge (r : registry) : merging :=
  {| reg := r; var_section := None; var_key := false |}.

(** The names bound when a lookup runs: the imports, [_nipype_home],
    [_Config], [loads] and the variables of the outer loop. *)
Definition module_globals : list string :=
  ["os"; "sys"; "Path"; "_nipype_home"; "_Config"; "loads";
   "sectionname"; "settings"].

Definition module_getattr (st : merging) (name : string)
  : option module_attr :=
  if name =? "logging" then Some (Sect Logging)
  else if name =? "execution" then Some (Sect Execution)
  else if name =? "monitoring" then Some (Sect Monitoring)
  else if name =? "check" then Some (Sect Check)
  else if existsb (String.eqb name) module_globals then Some (Foreign name)
  else if name =? "section" then var_section st
  else if (name =? "key") || (name =? "value") then
    if var_key st then Some (Foreign name) else None
  else if prefix "__" name && module_dunder R name then Some (Foreign name)
  else None.

(** [section = getattr(sys.modules[__name__], sectionname)]. *)
Definition bind_section (sectionname : string) : M merging module_attr :=
  fun st =>
    match module_getattr st sectionname with
    | None => (st, Raise AttributeError)
    | Some target =>
        ({| reg := reg st; var_section := Some target;
            var_key := var_key st |}, Ok target)
    end.

(** One turn of the inner loop: [key] and [value] are bound, then
    [setattr(section, key, value)] runs.  Assigning onto an object that is
    no section leaves the registry and is not followed further. *)
Definition assign (target : module_attr) (kv : string * value)
  : M merging unit :=
  fun st =>
    match target with
    | Sect s =>
        let (ns', res) := py_setattr (fst kv) (snd kv) (ns_of (reg st) s) in
        ({| reg := with_ns (reg st) s ns'; var_section := var_section st;
            var_key := true |}, res)
    | Foreign name =>
        ({| reg := reg st; var_section := var_section st; var_key := true |},
         Escapes name)
    end.

(** The body of the outer loop of the merge. *)
Definition merge_entry (entry : string * namespace) : M merging unit :=
  let (sectionname, settings) := entry in
  target <- bind_section sectionname ;;
  for_each (assign target) settings.

Definition merge (doc : document) : M merging unit :=
  for_each merge_entry doc.

(** The merge of the document [doc] into the registry [r], as run when the
    module is imported. *)
Definition merge_file (doc : document) (r : registry)
  : registry * result unit :=
  let (st, res) := merge doc (begin_merge r) in (reg st, res).

(** The state of the registry after import: the class statements, then the
    merge when the settings file exists ([cfg] is its parsed content). *)
Definition startup (cfg : option document) : registry * result unit :=
  match cfg with
  | None => (declared, Ok tt)
  | Some doc => merge_file doc declared
  end.



(** [section.get()], looked up on the class like any attribute. *)
Definition invoke_get (ns : namespace) : result namespace :=
  match lookup "get" ns with
  | None => get ns
  | Some v => if callable v then Escapes "get" else Raise TypeError
  end.

Definition sections : list section := [Logging; Execution; Monitoring; Check].

Fixpoint dump_sections (r : registry) (l : list section) : result document :=
  match l with
  | [] => Ok []
  | s :: rest =>
      match invoke_get (ns_of r s) with
      | Ok out =>
          match dump_sections r rest with
          | Ok d => Ok ((section_name s, out) :: d)
          | Raise e => Raise e
          | Escapes w => Escapes w
          end
      | Raise e => Raise e
      | Escapes w => Escapes w
      end
  end.

(** The dictionary that [__str__] hands to [dumps]. *)
Definition module_str (r : registry) : result document :=
  dump_sections r sections.

End Registry.

(** ** The logging library, as far as [update] drives it *)

Module PyLogging.

Record formatter := { fmt : string; datefmt : string }.

Inductive handler :=
| StreamHandler (stream : string) (f : option formatter)
| RotatingFileHandler (filename : string) (maxBytes backupCount : value)
                      (f : option formatter).

(** The process-wide state of the library: whether warnings are captured,
    the root logger's level and handlers, the levels of the named loggers. *)
Record state := {
  capture : bool;
  root_level : Z;
  root_handlers : list handler;
  logger_levels : list (string * Z)
}.

Fixpoint level_of (name : string) (l : list (string * Z)) : option Z :=
  match l with
  | [] => None
  | (n, z) :: rest => if n =? name then Some z else level_of name rest
  end.

Fixpoint set_level (name : string) (z : Z) (l : list (string * Z))
  : list (string * Z) :=
  match l with
  | [] => [(name, z)]
  | (n, z') :: rest =>
      if n =? name then (name, z) :: rest else (n, z') :: set_level name z rest
  end.

(** The library's two tables of levels. *)
Definition nameToLevel (s : string) : option Z :=
  if s =? "CRITICAL" then Some 50%Z
  else if s =? "FATAL" then Some 50%Z
  else if s =? "ERROR" then Some 40%Z
  else if s =? "WARN" then Some 30%Z
  else if s =? "WARNING" then Some 30%Z
  else if s =? "INFO" then Some 20%Z
  else if s =? "DEBUG" then Some 10%Z
  else if s =? "NOTSET" then Some 0%Z
  else None.

Definition levelToName (z : Z) : option string :=
  if Z.eqb z 50 then Some "CRITICAL"
  else if Z.eqb z 40 then Some "ERROR"
  else if Z.eqb z 30 then Some "WARNING"
  else if Z.eqb z 20 then Some "INFO"
  else if Z.eqb z 10 then Some "DEBUG"
  else if Z.eqb z 0 then Some "NOTSET"
  else None.

Definition is_rotating (h : handler) : bool :=
  match h with RotatingFileHandler _ _ _ _ => true | _ => false end.

Definition set_formatter (f : formatter) (h : handler) : handler :=
  match h with
  | StreamHandler s _ => StreamHandler s (Some f)
  | RotatingFileHandler n m b _ => RotatingFileHandler n m b (Some f)
  end.

(** [captureWarnings(True)]. *)
Definition captureWarnings : M state unit :=
  fun L =>
    ({| capture := true; root_level := root_level L;
        root_handlers := root_handlers L;
        logger_levels := logger_levels L |}, Ok tt).

(** [basicConfig(level=, stream=, force=True, format=, datefmt=)]: every
    handler of the root logger is removed and closed, then a stream handler
    with the given formatter is added and the root level set. *)
Definition basicConfig (level : Z) (stream : string) (f : formatter)
  : M state unit :=
  fun L =>
    ({| capture := capture L; root_level := level;
        root_handlers := [] ++ [StreamHandler stream (Some f)];
        logger_levels := logger_levels L |}, Ok tt).

(** [getLogger(name).setLevel(level)] after [_checkLevel]. *)
Definition checkLevel (v : value) : result Z :=
  match v with
  | VInt z => Ok z
  | VBool b => Ok (if b then 1%Z else 0%Z)
  | VStr s =>
      match nameToLevel s with
      | Some z => Ok z
      | None => Raise ValueError
      end
  | _ => Raise TypeError
  end.

Definition setLevel (name : string) (v : value) : M state unit :=
  z <- lift (checkLevel v) ;;
  fun L =>
    ({| capture := capture L; root_level := root_level L;
        root_handlers := root_handlers L;
        logger_levels := set_level name z (logger_levels L) |}, Ok tt).

(** [getLogger().addHandler(h)] for a handler that is not attached yet. *)
Definition addHandler (h : handler) : M state unit :=
  fun L =>
    ({| capture := capture L; root_level := root_level L;
        root_handlers := root_handlers L ++ [h];
        logger_levels := logger_levels L |}, Ok tt).

End PyLogging.

Section Bootstrap.

Context (R : runtime).

(** Whether an object can be a dictionary key. *)
Fixpoint hashable (v : value) : bool :=
  match v with
  | VList _ => false
  | VTuple l => forallb hashable l
  | _ => true
  end.

(** [getLevelName(v)]: the name of a known numeric level, the number of a
    known name, and otherwise the string ["Level %s" % v]; the two table
    lookups need a hashable [v], and [%] takes a tuple as its arguments. *)
Definition getLevelName (v : value) : result value :=
  let unknown (s : string) := Ok (VStr ("Level " ++ s)) in
  let of_int (z : Z) :=
    match PyLogging.levelToName z with
    | Some n => Ok (VStr n)
    | None => unknown (py_str R (VInt z))
    end in
  match v with
  | VInt z => of_int z
  | VBool b =>
      match PyLogging.levelToName (if b then 1%Z else 0%Z) with
      | Some n => Ok (VStr n)
      | None => unknown (py_str R v)
      end
  | VStr s =>
      match PyLogging.nameToLevel s with
      | Some z => Ok (VInt z)
      | None => unknown s
      end
  | VList _ => Raise TypeError
  | VTuple l =>
      if hashable v then
        match l with
        | [x] => unknown (py_str R x)
        | _ => Raise TypeError
        end
      else Raise TypeError
  | _ => unknown (py_str R v)
  end.

(** Python's truth value of an object. *)
Definition truthy (v : value) : bool :=
  match v with
  | VNone => false
  | VBool b => b
  | VInt z => negb (Z.eqb z 0)
  | VStr s => negb (s =? "")
  | VPath _ => true
  | VTuple l | VList l => match l with [] => false | _ => true end
  | VFun _ => true
  end.

(** [RotatingFileHandler(filename, maxBytes=, backupCount=)]: [maxBytes] is
    compared with 0, then the file is opened. *)
Definition RFHandler (filename : string) (maxBytes backupCount : value)
  : result PyLogging.handler :=
  match maxBytes with
  | VInt _ | VBool _ =>
      if can_open R filename
      then Ok (PyLogging.RotatingFileHandler filename maxBytes backupCount None)
      else Raise OSError
  | _ => Raise TypeError
  end.

Definition log_format : PyLogging.formatter :=
  {| PyLogging.fmt :=
       "%(asctime)s,%(msecs)d %(name)-2s %(levelname)-2s:" ++
       String "010" "  %(message)s";
     PyLogging.datefmt := "%y%m%d-%H:%M:%S" |}.

(** The level a sub-logger is given from the setting [k] of [logging]. *)
Definition set_from (logger k : string) (ns : namespace)
  : M PyLogging.state unit :=
  v <- lift (getattr_value R ns k) ;;
  n <- lift (getLevelName v) ;;
  PyLogging.setLevel logger n.

(** [_handler = RFHandler(str(Path(logging.log_directory) / "nipype.log"),
    maxBytes=logging.log_size, backupCount=logging.log_rotate)]. *)
Definition make_handler (ns : namespace) : result PyLogging.handler :=
  match getattr_value R ns "log_directory" with
  | Ok dir =>
      match Path_of dir with
      | Ok p =>
          match getattr_value R ns "log_size" with
          | Ok size =>
              match getattr_value R ns "log_rotate" with
              | Ok rotate =>
                  RFHandler
                    (PosixPath.to_string
                       (PosixPath.join p (PosixPath.parse "nipype.log")))
                    size rotate
              | Raise e => Raise e
              | Escapes w => Escapes w
              end
          | Raise e => Raise e
          | Escapes w => Escapes w
          end
      | Raise e => Raise e
      | Escapes w => Escapes w
      end
  | Raise e => Raise e
  | Escapes w => Escapes w
  end.

(** [update()], reading the namespace [ns] of the section [logging]. *)
Definition update (ns : namespace) : M PyLogging.state unit :=
  PyLogging.captureWarnings ;;;
  PyLogging.basicConfig 20 "sys.stdout" log_format ;;;
  set_from "nipype.workflow" "workflow_level" ns ;;;
  set_from "nipype.utils" "utils_level" ns ;;;
  set_from "nipype.interface" "interface_level" ns ;;;
  to_file <- lift (getattr_value R ns "log_to_file") ;;
  if truthy to_file then
    h <- lift (make_handler ns) ;;
    PyLogging.addHandler (PyLogging.set_formatter log_format h)
  else ret tt.

End Bootstrap.

(** ** A reference environment *)

(** CPython 3 on a POSIX system, as far as the examples below go: the names
    listed are attributes of every class and of every module there. *)
Definition cpython : runtime :=
  {| getcwd := "/work";
     home_dir := "/home/user";
     config_dir_env := None;
     class_dunder := fun k =>
       existsb (String.eqb k)
         ["__class__"; "__dict__"; "__name__"; "__qualname__"; "__bases__";
          "__mro__"; "__module__"; "__doc__"; "__eq__"; "__hash__";
          "__repr__"; "__str__"; "__init__"; "__new__"; "__call__";
          "__subclasses__"; "__setattr__"; "__getattribute__"];
     type_setattr := fun k v =>
       if existsb (String.eqb k) ["__dict__"; "__mro__"] then
         Reject AttributeError
       else if existsb (String.eqb k) ["__class__"; "__bases__"] then
         Reject TypeError
       else if existsb (String.eqb k) ["__name__"; "__qualname__"] then
         match v with VStr _ => Absorb | _ => Reject TypeError end
       else Store;
     module_dunder := fun k =>
       existsb (String.eqb k)
         ["__name__"; "__doc__"; "__package__"; "__loader__"; "__spec__";
          "__file__"; "__path__"; "__builtins__"; "__dict__"; "__class__"];
     repr_other := fun _ => "<object>";
     can_open := fun _ => true |}.

Definition section_eq_dec (a b : section) : {a = b} + {a <> b}.
Proof. decide equality. Defined.

(** Whether the strings of a list are pairwise distinct. *)
Fixpoint distinct (l : list string) : bool :=
  match l with
  | [] => true
  | x :: rest => negb (existsb (String.eqb x) rest) && distinct rest
  end.

(** ** Readings of the specification used in the statements below *)

Section Readings.

Context (R : runtime).

(** The loop of [load] with the path branch left out: a value that is
    present is assigned as it is when the class has the attribute. *)
Definition verbatim_item (kv : string * value) : M namespace unit :=
  let (k, v) := kv in
  if is_none v then ret tt
  else
    h <- gets (fun ns => py_hasattr R ns k) ;;
    if h then py_setattr R k v else ret tt.


(** An entry of a class namespace that [get] reports: the name is not
    private, the value is neither [None] nor callable. *)
Definition visible (kv : string * value) : bool :=
  negb (prefix "_" (fst kv)) && negb (is_none (snd kv))
  && negb (callable (snd kv)).

(** The value [get] reports for an entry of the namespace [ns]: the string
    of a path-typed one, the value itself otherwise. *)
Definition rendered (ns : namespace) (kv : string * value) : value :=
  match in_paths R ns (fst kv) with
  | Ok true => VStr (py_str R (snd kv))
  | _ => snd kv
  end.

Definition report (ns : namespace) (kv : string * value) : string * value :=
  (fst kv, rendered ns kv).

(** The severity a sub-logger ends up with from the setting [k]. *)
Definition sublevel (ns : namespace) (k : string) : result Z :=
  match getattr_value R ns k with
  | Ok v =>
      match getLevelName R v with
      | Ok n => PyLogging.checkLevel n
      | Raise e => Raise e
      | Escapes w => Escapes w
      end
  | Raise e => Raise e
  | Escapes w => Escapes w
  end.

(** The settings of [logging] are usable by [update]: the three levels are
    levels the logging library knows, and when file logging is on the
    rotating handler can be built. *)
Definition bootable (ns : namespace) : Prop :=
  (exists z, sublevel ns "workflow_level" = Ok z) /\
  (exists z, sublevel ns "utils_level" = Ok z) /\
  (exists z, sublevel ns "interface_level" = Ok z) /\
  (exists t, getattr_value R ns "log_to_file" = Ok t /\
             (truthy t = true -> exists h, make_handler R ns = Ok h)).

(** Whether [get] reports a value for the name [k] bound in [ns]. *)
Definition reports (ns : namespace) (k : string) : bool :=
  match lookup k ns with
  | Some v => negb (is_none v) && negb (callable v)
  | None => false
  end.


End Readings.

(** [for k, v in tbl.items(): setattr(cls, k, v)] for public names: every
    entry of the table goes into the namespace. *)
Definition update_all (tbl ns : namespace) : namespace :=
  fold_left (fun n kv => dict_set (fst kv) (snd kv) n) tbl ns.

(** ** States used in the examples *)

(** The section [execution] once [crashdump_dir] has been made path-typed. *)
Definition execution_with_paths : namespace :=
  fst (load cpython [("_paths", VTuple [VStr "crashdump_dir"])] true
         (execution (declared cpython))).

(** The registry after [execution.load({"plugin": len})]. *)
Definition registry_with_callable : registry :=
  with_ns (declared cpython) Execution
    (fst (load cpython [("plugin", VFun "len")] true
            (execution (declared cpython)))).

(** The registry after [execution.load({"plugin": "MultiProc"})] and
    [logging.load({"log_to_file": True})]. *)
Definition registry_multiproc : registry :=
  with_ns
    (with_ns (declared cpython) Execution
       (fst (load cpython [("plugin", VStr "MultiProc")] true
               (execution (declared cpython)))))
    Logging
    (fst (load cpython [("log_to_file", VBool true)] true
            (logging (declared cpython)))).


(** The section [logging] after [logging.load({"workflow_level": "VERBOSE"})]. *)
Definition logging_verbose : namespace :=
  fst (load cpython [("workflow_level", VStr "VERBOSE")] true
         (logging (declared cpython))).

(** The tables of a settings file, none when there is no file. *)
Definition tables (cfg : option document) : document :=
  match cfg with Some doc => doc | None => [] end.


(** The document [__str__] serialises from [registry_with_callable], and
    the registry obtained by merging it into the declared defaults. *)
Definition snapshot_with_callable : document :=
  match module_str cpython registry_with_callable with
  | Ok d => d
  | _ => []
  end.



(** The section [logging] after
    [logging.load({"workflow_level": "DEBUG", "log_to_file": True})]. *)
Definition logging_debug : namespace :=
  fst (load cpython
         [("workflow_level", VStr "DEBUG"); ("log_to_file", VBool true)] true
         (logging (declared cpython))).

(** The logging library before anything configures it: the root logger at
    [WARNING], no handler. *)
Definition logging_unconfigured : PyLogging.state :=
  {| PyLogging.capture := false;
     PyLogging.root_level := 30;
     PyLogging.root_handlers := [];
     PyLogging.logger_levels := [] |}.

(** Whether no key of a table starts with two underscores. *)
Definition plain_keys (tbl : namespace) : bool :=
  forallb (fun kv => negb (prefix "__" (fst kv))) tbl.

(** A settings file as the module expects it: every table is named after one
    of the four sections and has plain keys. *)
Definition wellformed_document (doc : document) : bool :=
  forallb (fun entry =>
             existsb (String.eqb (fst entry)) (map section_name sections)
             && plain_keys (snd entry))
          doc.

(** Whether a value is a string or a path, what [Path] accepts. *)
Definition pathlike (v : value) : bool :=
  match v with VStr _ | VPath _ => true | _ => false end.


(** The root logger's handlers right after [basicConfig]. *)
Definition console_only : list PyLogging.handler :=
  [PyLogging.StreamHandler "sys.stdout" (Some log_format)].

(** The state of the logging library after a call of [update] that
    returned: the three sub-loggers at the levels [zw], [zu], [zi], the root
    logger with the console handler and the handlers [extra]. *)
Definition configured (zw zu zi : Z) (extra : list PyLogging.handler)
    (L : PyLogging.state) : PyLogging.state :=
  {| PyLogging.capture := true;
     PyLogging.root_level := 20;
     PyLogging.root_handlers := (console_only ++ extra)%list;
     PyLogging.logger_levels :=
       PyLogging.set_level "nipype.interface" zi
         (PyLogging.set_level "nipype.utils" zu
            (PyLogging.set_level "nipype.workflow" zw
               (PyLogging.logger_levels L))) |}.

(** The rotating handler [update] attaches for the settings [ns]: none when
    file logging is off. *)
Definition file_handlers (R : runtime) (ns : namespace)
  : list PyLogging.handler :=
  match getattr_value R ns "log_to_file" with
  | Ok t =>
      if truthy t then
        match make_handler R ns with
        | Ok h => [PyLogging.set_formatter log_format h]
        | _ => []
        end
      else []
  | _ => []
  end.


(** ** Dictionaries: basic facts *)

Lemma lookup_dict_set_eq k v ns : lookup k (dict_set k v ns) = Some v.
Proof.
  induction ns as [|[k' v'] ns IH]; simpl.
  - now rewrite String.eqb_refl.
  - destruct (k' =? k) eqn:E; simpl.
    + now rewrite String.eqb_refl.
    + now rewrite E.
Qed.

Lemma lookup_dict_set_neq k k' v ns :
  k <> k' -> lookup k' (dict_set k v ns) = lookup k' ns.
Proof.
  intros Hne. induction ns as [|[k0 v0] ns IH]; simpl.
  - destruct (k =? k') eqn:E; [apply String.eqb_eq in E; contradiction | easy].
  - destruct (k0 =? k) eqn:E; simpl.
    + apply String.eqb_eq in E. subst k0.
      destruct (k =? k') eqn:E'; [apply String.eqb_eq in E'; contradiction | easy].
    + destruct (k0 =? k'); [easy | apply IH].
Qed.


Lemma lookup_None k ns : lookup k ns = None <-> ~ In k (keys ns).
Proof.
  induction ns as [|[k' v'] ns IH]; simpl; [tauto|].
  destruct (k' =? k) eqn:E.
  - apply String.eqb_eq in E. split; [discriminate | intros H; exfalso; apply H; now left].
  - apply String.eqb_neq in E. rewrite IH. tauto.
Qed.

Lemma In_lookup k v ns : NoDup (keys ns) -> In (k, v) ns -> lookup k ns = Some v.
Proof.
  induction ns as [|[k' v'] ns IH]; simpl; [tauto|].
  intros Hnd [H|H]; inversion Hnd as [|? ? Hnot Hnd']; subst.
  - injection H as -> ->. now rewrite String.eqb_refl.
  - destruct (k' =? k) eqn:E.
    + apply String.eqb_eq in E. subst k'. exfalso. apply Hnot.
      change k with (fst (k, v)). now apply in_map.
    + now apply IH.
Qed.



(** ** Loops *)

Lemma for_each_cons {S A} (f : A -> M S unit) a l s :
  for_each f (a :: l) s =
  match f a s with
  | (s', Ok _) => for_each f l s'
  | (s', Raise e) => (s', Raise e)
  | (s', Escapes w) => (s', Escapes w)
  end.
Proof. reflexivity. Qed.

Lemma for_each_preserves {S A} (P : S -> Prop) (f : A -> M S unit) l :
  (forall a s, In a l -> P s -> P (fst (f a s))) ->
  forall s, P s -> P (fst (for_each f l s)).
Proof.
  induction l as [|a l IH]; intros Hstep s Hs; simpl; [easy|].
  unfold bind. specialize (Hstep a s (or_introl eq_refl) Hs) as H1.
  destruct (f a s) as [s1 [[]|e|w]]; simpl in *; try easy.
  apply IH; [|easy]. intros b t Hb. apply Hstep. now right.
Qed.

Lemma for_each_ext {S A} (f g : A -> M S unit) (P : S -> Prop) l :
  (forall a s, In a l -> P s -> f a s = g a s /\ P (fst (g a s))) ->
  forall s, P s -> for_each f l s = for_each g l s.
Proof.
  induction l as [|a l IH]; intros Hstep s Hs; simpl; [easy|].
  unfold bind. destruct (Hstep a s (or_introl eq_refl) Hs) as [E H1].
  rewrite E. destruct (g a s) as [s1 [[]|e|w]]; simpl in *; try easy.
  apply IH; [|easy]. intros b t Hb. apply Hstep. now right.
Qed.

Lemma for_each_app {S A} (f : A -> M S unit) l1 l2 s s1 :
  for_each f l1 s = (s1, Ok tt) ->
  for_each f (l1 ++ l2)%list s = for_each f l2 s1.
Proof.
  revert s. induction l1 as [|a l1 IH]; intros s; simpl.
  - unfold ret. now intros [= ->].
  - unfold bind. destruct (f a s) as [s' [[]|e|w]]; try discriminate. apply IH.
Qed.

(** ** [load] *)

Section LoadFacts.

Context (R : runtime).

Lemma py_setattr_other k v ns k' :
  k <> k' -> lookup k' (fst (py_setattr R k v ns)) = lookup k' ns.
Proof.
  intros Hne. unfold py_setattr.
  destruct (prefix "__" k); [destruct (type_setattr R k v)|]; simpl;
    try easy; now apply lookup_dict_set_neq.
Qed.

Lemma load_item_other k v ns k' :
  k <> k' -> lookup k' (fst (load_item R (k, v) ns)) = lookup k' ns.
Proof.
  intros Hne. unfold load_item, bind, lift, gets, ret.
  destruct (is_none v); [easy|].
  destruct (in_paths R ns k) as [[|]|e|w]; simpl; try easy.
  - destruct (Path_of v); simpl; try easy. now apply py_setattr_other.
  - destruct (py_hasattr R ns k); [now apply py_setattr_other | easy].
Qed.

Lemma fst_call_init ns : fst (call_init R ns) = ns.
Proof.
  unfold call_init.
  destruct (class_getattr R ns "init") as [[v|]|]; try easy.
  now destruct (callable v).
Qed.

Lemma fst_load settings init ns :
  fst (load R settings init ns) = fst (for_each (load_item R) settings ns).
Proof.
  unfold load, bind.
  destruct (for_each (load_item R) settings ns) as [ns' [[]|e|w]]; simpl;
    try easy.
  destruct init; [apply fst_call_init | easy].
Qed.

Lemma class_getattr_lookup ns ns' k :
  lookup k ns' = lookup k ns -> class_getattr R ns' k = class_getattr R ns k.
Proof. unfold class_getattr. now intros ->. Qed.

Lemma no_hook_call_init ns :
  py_hasattr R ns "init" = false -> call_init R ns = (ns, Ok tt).
Proof.
  unfold py_hasattr, call_init.
  now destruct (class_getattr R ns "init") as [[v|]|].
Qed.

(** A section that does not rebind [_paths] inherits the empty tuple. *)
Lemma inherited_paths ns k :
  lookup "_paths" ns = None -> in_paths R ns k = Ok false.
Proof.
  intros H. unfold in_paths, getattr_value, class_getattr. now rewrite H.
Qed.


Lemma load_without_paths settings :
  (forall v, In ("_paths", v) settings -> v = VNone) ->
  forall ns, lookup "_paths" ns = None ->
  for_each (load_item R) settings ns = for_each (verbatim_item R) settings ns.
Proof.
  intros Hs. apply for_each_ext with (P := fun ns => lookup "_paths" ns = None).
  intros [k v] ns Hin Hns. split.
  - unfold load_item, verbatim_item, bind.
    destruct (is_none v); [easy|]. now rewrite (inherited_paths ns k Hns).
  - unfold verbatim_item, bind, gets, ret.
    destruct (is_none v) eqn:Ev; [easy|].
    destruct (py_hasattr R ns k); [|easy].
    rewrite py_setattr_other; [easy|].
    intros ->. apply Hs in Hin. now subst v.
Qed.

End LoadFacts.

Lemma keys_functional (ns : namespace) k v v' :
  NoDup (keys ns) -> In (k, v) ns -> In (k, v') ns -> v = v'.
Proof.
  intros Hnd H H'. apply (In_lookup _ _ _ Hnd) in H, H'. congruence.
Qed.

(** C5: when the override dictionary maps [k] to [None], [load] leaves the
    value read as [cls.k] as it was, whatever the other entries are and
    whether [load] returns or raises. *)
Theorem load_none_leaves_setting (R : runtime) (ns settings : namespace)
    (init : bool) (k : string) :
  NoDup (keys settings) ->
  In (k, VNone) settings ->
  class_getattr R (fst (load R settings init ns)) k = class_getattr R ns k.
Proof.
  intros Hnd Hin. apply class_getattr_lookup. rewrite fst_load.
  apply for_each_preserves with (P := fun ns' => lookup k ns' = lookup k ns);
    [|easy].
  intros [k' v'] s Hin' Hs. rewrite <- Hs.
  destruct (string_dec k' k) as [->|Hne].
  - now rewrite (keys_functional _ _ _ _ Hnd Hin' Hin).
  - now apply load_item_other.
Qed.

Lemma load_none_leaves_setting_witness :
  NoDup (keys [("plugin", VNone); ("keep_inputs", VBool true)]) /\
  In ("plugin", VNone) [("plugin", VNone); ("keep_inputs", VBool true)] /\
  class_getattr cpython
    (fst (load cpython [("plugin", VNone); ("keep_inputs", VBool true)] true
            (execution (declared cpython)))) "plugin"
  = class_getattr cpython (execution (declared cpython)) "plugin".
Proof.
  assert (Hnd : NoDup (keys [("plugin", VNone); ("keep_inputs", VBool true)])).
  { repeat constructor; simpl; intuition discriminate. }
  assert (Hin : In ("plugin", VNone)
                  [("plugin", VNone); ("keep_inputs", VBool true)]).
  { now left. }
  split; [exact Hnd | split; [exact Hin|]].
  exact (load_none_leaves_setting cpython _ _ true "plugin" Hnd Hin).
Defined.

(** C4, as the code has it: when no entry with a value resolves as an
    attribute of the section class (on the section, on [_Config] or through
    the interpreter) or is path-typed, and the section has no [init] hook,
    [load] returns normally and leaves the namespace as it was. *)
Theorem load_unresolved_keys_noop (R : runtime) (ns settings : namespace)
    (init : bool) :
  (forall k v, In (k, v) settings -> v <> VNone ->
               in_paths R ns k = Ok false /\ py_hasattr R ns k = false) ->
  py_hasattr R ns "init" = false ->
  load R settings init ns = (ns, Ok tt).
Proof.
  intros Hs Hinit.
  assert (E : for_each (load_item R) settings ns = (ns, Ok tt)).
  { induction settings as [|[k v] rest IH]; [easy|].
    rewrite for_each_cons.
    assert (E1 : load_item R (k, v) ns = (ns, Ok tt)).
    { unfold load_item, bind, gets, ret.
      destruct (is_none v) eqn:Ev; [easy|].
      destruct (Hs k v (or_introl eq_refl)) as [Hp Hh];
        [intros ->; discriminate|].
      now rewrite Hp, Hh. }
    rewrite E1. apply IH. intros k' v' Hin. apply Hs. now right. }
  unfold load, bind. rewrite E.
  destruct init; [now apply no_hook_call_init | easy].
Qed.

Lemma load_unresolved_keys_noop_witness :
  load cpython [("unknown_key", VInt 3); ("plugin", VNone)] true
       (check (declared cpython))
  = (check (declared cpython), Ok tt).
Proof.
  apply load_unresolved_keys_noop; [|reflexivity].
  intros k v [[= <- <-]|[[= <- <-]|[]]] Hv; [now split | now destruct Hv].
Defined.

(** C4, as the claim has it, fails: [get] is no setting that [check]
    declares and is not path-typed, yet [load] binds it on the section. *)
Lemma load_get_key_changes_check :
  ~ In "get" (keys (body cpython Check)) /\
  in_paths cpython (check (declared cpython)) "get" = Ok false /\
  load cpython [("get", VInt 1)] true (check (declared cpython))
  = ((check (declared cpython) ++ [("get", VInt 1)])%list, Ok tt) /\
  fst (load cpython [("get", VInt 1)] true (check (declared cpython)))
  <> check (declared cpython).
Proof.
  repeat split; try reflexivity.
  - simpl. intuition discriminate.
  - intros H. apply (f_equal (@List.length _)) in H. discriminate.
Qed.




(** ** Path-typed settings *)

Lemma parse_keeps s :
  forallb PosixPath.keep (PosixPath.parts (PosixPath.parse s)) = true.
Proof.
  unfold PosixPath.parse. destruct (PosixPath.splitroot s) as [r rel]. simpl.
  apply forallb_forall. intros x Hx. now apply filter_In in Hx.
Qed.

Lemma absolute_is_absolute cwd p :
  PosixPath.is_absolute (PosixPath.parse cwd) = true ->
  PosixPath.is_absolute (PosixPath.absolute cwd p) = true.
Proof.
  intros Hcwd. unfold PosixPath.absolute.
  destruct (PosixPath.is_absolute p) eqn:Ep; [easy|].
  unfold PosixPath.join. now rewrite Ep.
Qed.

Lemma absolute_keeps cwd s :
  forallb PosixPath.keep
    (PosixPath.parts (PosixPath.absolute cwd (PosixPath.parse s))) = true.
Proof.
  unfold PosixPath.absolute, PosixPath.join.
  destruct (PosixPath.is_absolute (PosixPath.parse s)); [apply parse_keeps|].
  simpl. rewrite forallb_app. now rewrite !parse_keeps.
Qed.

Section PathFacts.

Context (R : runtime).

Lemma in_paths_lookup ns ns' k :
  lookup "_paths" ns' = lookup "_paths" ns ->
  in_paths R ns' k = in_paths R ns k.
Proof.
  intros H. unfold in_paths, getattr_value.
  now rewrite (class_getattr_lookup R ns ns' "_paths" H).
Qed.

Lemma load_returns settings init ns ns' :
  load R settings init ns = (ns', Ok tt) ->
  for_each (load_item R) settings ns = (ns', Ok tt).
Proof.
  unfold load, bind.
  destruct (for_each (load_item R) settings ns) as [ns1 [[]|e|w]];
    try discriminate.
  intros H. assert (E : ns1 = ns').
  { destruct init.
    - rewrite <- (fst_call_init R ns1). now rewrite H.
    - unfold ret in H. now injection H. }
  now subst.
Qed.

Lemma load_path_entry settings k v p :
  NoDup (keys settings) ->
  In (k, v) settings ->
  ~ In "_paths" (keys settings) ->
  Path_of v = Ok p ->
  prefix "__" k = false ->
  forall ns ns',
    in_paths R ns k = Ok true ->
    for_each (load_item R) settings ns = (ns', Ok tt) ->
    lookup k ns' = Some (VPath (PosixPath.absolute (getcwd R) p)).
Proof.
  intros Hnd Hin Hp Hv Hk.
  induction settings as [|[k0 v0] rest IH]; [easy|].
  intros ns ns' Hpt. rewrite for_each_cons.
  destruct (load_item R (k0, v0) ns) as [ns1 [[]|e|w]] eqn:E1;
    try discriminate.
  intros Hrest. inversion Hnd as [|? ? Hnot Hnd']; subst.
  destruct Hin as [[= -> ->]|Hin].
  - assert (Ens1 : ns1 = dict_set k (VPath (PosixPath.absolute (getcwd R) p)) ns).
    { revert E1. unfold load_item, bind, lift.
      replace (is_none v) with false by (now destruct v).
      rewrite Hpt, Hv. unfold py_setattr. rewrite Hk. now intros [= <-]. }
    subst ns1.
    rewrite <- (lookup_dict_set_eq k (VPath (PosixPath.absolute (getcwd R) p)) ns).
    replace ns' with (fst (for_each (load_item R) rest
      (dict_set k (VPath (PosixPath.absolute (getcwd R) p)) ns)))
      by now rewrite Hrest.
    apply for_each_preserves
      with (P := fun s => lookup k s = lookup k
        (dict_set k (VPath (PosixPath.absolute (getcwd R) p)) ns)); [|easy].
    intros [k' v'] s Hin' Hs. rewrite <- Hs. apply load_item_other.
    intros ->. apply Hnot. change k with (fst (k, v')). now apply in_map.
  - apply (IH Hnd' Hin) with (ns := ns1); [| |easy].
    + intros H. apply Hp. now right.
    + rewrite <- Hpt. apply in_paths_lookup.
      replace ns1 with (fst (load_item R (k0, v0) ns)) by now rewrite E1.
      apply load_item_other. intros ->. apply Hp. now left.
Qed.

End PathFacts.

(** C1, as the code has it: for a path-typed key [k] given a string or a
    path, and an override dictionary that does not rebind [_paths], a call
    of [load] that returns leaves [cls.k] holding [Path(v).absolute()]: an
    absolute path, the working directory in front of a relative one, and for
    a string without empty or [.] components ([..] is kept as it is). *)
Theorem load_path_typed_absolute (R : runtime) (ns ns' settings : namespace)
    (init : bool) (k : string) (v : value) (p : PosixPath.t) :
  NoDup (keys settings) ->
  In (k, v) settings ->
  ~ In "_paths" (keys settings) ->
  in_paths R ns k = Ok true ->
  Path_of v = Ok p ->
  prefix "__" k = false ->
  PosixPath.is_absolute (PosixPath.parse (getcwd R)) = true ->
  load R settings init ns = (ns', Ok tt) ->
  lookup k ns' = Some (VPath (PosixPath.absolute (getcwd R) p)) /\
  PosixPath.is_absolute (PosixPath.absolute (getcwd R) p) = true /\
  (forall s, v = VStr s ->
     forallb PosixPath.keep
       (PosixPath.parts (PosixPath.absolute (getcwd R) p)) = true).
Proof.
  intros Hnd Hin Hp Hpt Hv Hk Hcwd Hload. repeat split.
  - apply load_returns in Hload.
    now apply (load_path_entry R settings k v p Hnd Hin Hp Hv Hk ns ns').
  - now apply absolute_is_absolute.
  - intros s ->. injection Hv as <-. apply absolute_keeps.
Qed.

Lemma load_path_typed_absolute_witness :
  lookup "crashdump_dir"
    (fst (load cpython [("crashdump_dir", VStr "out//./crash")] true
            execution_with_paths))
  = Some (VPath (PosixPath.mk PosixPath.Slash ["work"; "out"; "crash"])).
Proof.
  refine (proj1 (load_path_typed_absolute cpython execution_with_paths
    (fst (load cpython [("crashdump_dir", VStr "out//./crash")] true
            execution_with_paths))
    [("crashdump_dir", VStr "out//./crash")] true "crashdump_dir"
    (VStr "out//./crash") (PosixPath.parse "out//./crash")
    _ _ _ _ _ _ _ _)); try reflexivity.
  - repeat constructor. simpl. tauto.
  - now left.
  - simpl. intuition discriminate.
Defined.

(** C1, as the claim has it, fails: the path stored for a path-typed key is
    absolute but keeps the [..] of the value it was given. *)
Lemma load_path_typed_keeps_dotdot :
  in_paths cpython execution_with_paths "crashdump_dir" = Ok true /\
  lookup "crashdump_dir"
    (fst (load cpython [("crashdump_dir", VStr "a/../b")] true
            execution_with_paths))
  = Some (VPath (PosixPath.mk PosixPath.Slash ["work"; "a"; ".."; "b"])) /\
  PosixPath.normalized (PosixPath.mk PosixPath.Slash ["work"; "a"; ".."; "b"])
  = false.
Proof. repeat split; reflexivity. Qed.

(** ** [get] *)

Lemma distinct_NoDup l : distinct l = true -> NoDup l.
Proof.
  induction l as [|x l IH]; simpl; [constructor|].
  intros H. apply andb_prop in H as [Hx Hl]. constructor; [|now apply IH].
  intros Hin. apply negb_true_iff in Hx.
  assert (existsb (String.eqb x) l = true); [|congruence].
  apply existsb_exists. exists x. split; [easy | apply String.eqb_refl].
Qed.

Lemma dict_set_fresh k v ns :
  ~ In k (keys ns) -> dict_set k v ns = (ns ++ [(k, v)])%list.
Proof.
  induction ns as [|[k' v'] ns IH]; simpl; [easy|].
  intros H. destruct (k' =? k) eqn:E.
  - apply String.eqb_eq in E. tauto.
  - f_equal. apply IH. tauto.
Qed.

Lemma visible_spec k v :
  visible (k, v) = true <->
  prefix "_" k = false /\ v <> VNone /\ callable v = false.
Proof.
  unfold visible. simpl. rewrite !andb_true_iff, !negb_true_iff.
  split; intros [[H1 H2] H3] || intros [H1 [H2 H3]]; repeat split; try easy.
  - intros ->. discriminate.
  - now destruct v.
Qed.

Section GetFacts.

Context (R : runtime).

Lemma get_item_hidden ns out kv :
  visible kv = false -> get_item R ns out kv = Ok out.
Proof.
  destruct kv as [k v]. unfold visible, get_item. simpl.
  destruct (prefix "_" k); [easy|]. destruct (is_none v); [easy|].
  now destruct (callable v).
Qed.

Lemma get_item_visible ns out kv :
  visible kv = true ->
  get_item R ns out kv =
  match in_paths R ns (fst kv) with
  | Ok _ => Ok (dict_set (fst kv) (rendered R ns kv) out)
  | Raise e => Raise e
  | Escapes w => Escapes w
  end.
Proof.
  destruct kv as [k v]. unfold visible, get_item, rendered. simpl.
  destruct (prefix "_" k); [easy|]. destruct (is_none v); [easy|].
  destruct (callable v); [easy|]. intros _.
  now destruct (in_paths R ns k) as [[|]|e|w].
Qed.

(** When the loop of [get] ends, it has appended the visible entries, in
    order, each with the value it reports. *)
Lemma get_loop_sound ns items :
  NoDup (keys items) ->
  forall out out',
    (forall k, In k (keys items) -> ~ In k (keys out)) ->
    get_loop R ns out items = Ok out' ->
    out' = (out ++ map (report R ns) (filter visible items))%list.
Proof.
  induction items as [|[k v] rest IH]; intros Hnd out out' Hfresh;
    cbn [get_loop filter].
  - intros [= <-]. simpl. now rewrite app_nil_r.
  - inversion Hnd as [|? ? Hnot Hnd']; subst.
    destruct (visible (k, v)) eqn:Ev.
    + rewrite (get_item_visible ns out (k, v) Ev). simpl fst.
      destruct (in_paths R ns k) as [b|e|w]; try discriminate.
      rewrite dict_set_fresh by (apply Hfresh; now left).
      intros H. apply IH in H; [|easy|].
      * rewrite H, <- app_assoc. reflexivity.
      * intros k' Hk'. unfold keys. rewrite map_app, in_app_iff. simpl.
        intros [Hin|[->|[]]]; [|easy].
        apply (Hfresh k'); [now right | easy].
    + rewrite (get_item_hidden ns out (k, v) Ev).
      apply IH; [easy|]. intros k' Hk'. apply Hfresh. now right.
Qed.


Lemma get_sound ns out :
  NoDup (keys ns) -> get R ns = Ok out ->
  out = map (report R ns) (filter visible ns).
Proof.
  intros Hnd H. apply (get_loop_sound ns ns Hnd [] out) in H; [easy|].
  now intros k _ [].
Qed.

Lemma keys_report ns items :
  keys (map (report R ns) items) = keys items.
Proof. unfold keys. rewrite map_map. now apply map_ext. Qed.

Lemma NoDup_keys_filter (f : string * value -> bool) ns :
  NoDup (keys ns) -> NoDup (keys (filter f ns)).
Proof.
  induction ns as [|[k v] ns IH]; simpl; [easy|].
  intros Hnd. inversion Hnd as [|? ? Hnot Hnd']; subst.
  destruct (f (k, v)); simpl; [|now apply IH].
  constructor; [|now apply IH].
  intros Hin. apply Hnot. unfold keys in *.
  apply in_map_iff in Hin as [[k' v'] [Hk Hin]]. simpl in Hk. subst k'.
  apply filter_In in Hin as [Hin _].
  change k with (fst (k, v')). now apply in_map.
Qed.

End GetFacts.



(** ** The merge of the settings file *)

Lemma with_ns_same r s : with_ns r s (ns_of r s) = r.
Proof. now destruct r, s. Qed.

Lemma with_ns_twice r s a b : with_ns (with_ns r s a) s b = with_ns r s b.
Proof. now destruct s. Qed.

Lemma ns_of_with_ns r s ns : ns_of (with_ns r s ns) s = ns.
Proof. now destruct s. Qed.

Lemma ns_of_with_ns_other r s s' ns :
  s <> s' -> ns_of (with_ns r s ns) s' = ns_of r s'.
Proof. now destruct s, s'. Qed.

Lemma section_name_inj s s' : section_name s = section_name s' -> s = s'.
Proof. now destruct s, s'. Qed.

Section MergeFacts.

Context (R : runtime).

Lemma module_getattr_section st s :
  module_getattr R st (section_name s) = Some (Sect s).
Proof. now destruct s. Qed.

(** A lookup finds the section [s] under its own name, or under [section],
    the variable that holds the target of the turn before. *)
Lemma module_getattr_Sect st name s :
  module_getattr R st name = Some (Sect s) ->
  name = section_name s \/ name = "section".
Proof.
  unfold module_getattr.
  destruct (name =? "logging") eqn:E1;
    [apply String.eqb_eq in E1; intros [= <-]; now left|].
  destruct (name =? "execution") eqn:E2;
    [apply String.eqb_eq in E2; intros [= <-]; now left|].
  destruct (name =? "monitoring") eqn:E3;
    [apply String.eqb_eq in E3; intros [= <-]; now left|].
  destruct (name =? "check") eqn:E4;
    [apply String.eqb_eq in E4; intros [= <-]; now left|].
  destruct (existsb (String.eqb name) module_globals); [discriminate|].
  destruct (name =? "section") eqn:E5;
    [apply String.eqb_eq in E5; now right|].
  destruct ((name =? "key") || (name =? "value"));
    [now destruct (var_key st)|].
  now destruct (prefix "__" name && module_dunder R name).
Qed.

(** The inner loop on a section class is the loop of assignments on its
    namespace. *)
Lemma assign_loop s tbl :
  forall st,
    for_each (assign R (Sect s)) tbl st =
    (let (ns', res) :=
       for_each (fun kv => py_setattr R (fst kv) (snd kv)) tbl
                (ns_of (reg st) s) in
     ({| reg := with_ns (reg st) s ns';
         var_section := var_section st;
         var_key := match tbl with [] => var_key st | _ :: _ => true end |},
      res)).
Proof.
  induction tbl as [|kv rest IH]; intros st.
  - simpl. unfold ret. rewrite with_ns_same. now destruct st.
  - rewrite !for_each_cons. unfold assign at 1.
    destruct (py_setattr R (fst kv) (snd kv) (ns_of (reg st) s))
      as [ns1 [[]|e|w]]; try reflexivity.
    rewrite IH. cbn [reg var_section var_key].
    rewrite ns_of_with_ns.
    destruct (for_each _ rest ns1) as [ns' res].
    rewrite with_ns_twice. now destruct rest.
Qed.

Lemma merge_entry_section st s tbl :
  merge_entry R (section_name s, tbl) st =
  (let (ns', res) :=
     for_each (fun kv => py_setattr R (fst kv) (snd kv)) tbl
              (ns_of (reg st) s) in
   ({| reg := with_ns (reg st) s ns';
       var_section := Some (Sect s);
       var_key := match tbl with [] => var_key st | _ :: _ => true end |},
    res)).
Proof.
  unfold merge_entry, bind, bind_section.
  rewrite module_getattr_section. now rewrite assign_loop.
Qed.

(** An entry that does not resolve to the section [s] leaves it alone. *)
Lemma merge_entry_other s name tbl st :
  name <> section_name s -> name <> "section" ->
  ns_of (reg (fst (merge_entry R (name, tbl) st))) s = ns_of (reg st) s.
Proof.
  intros Hne Hne'. unfold merge_entry, bind, bind_section.
  destruct (module_getattr R st name) as [[s'|n]|] eqn:E; [| |easy].
  - apply module_getattr_Sect in E as [E|E]; [|contradiction].
    rewrite assign_loop. cbn [reg].
    destruct (for_each _ tbl (ns_of (reg st) s')) as [ns' res]. simpl.
    apply ns_of_with_ns_other. intros ->. contradiction.
  - destruct tbl as [|kv rest]; [easy|].
    rewrite for_each_cons. reflexivity.
Qed.

Lemma setattr_loop_other settings k :
  ~ In k (keys settings) ->
  forall ns,
    lookup k (fst (for_each (fun kv => py_setattr R (fst kv) (snd kv))
                            settings ns)) = lookup k ns.
Proof.
  intros Hk ns.
  apply for_each_preserves with (P := fun s => lookup k s = lookup k ns);
    [|easy].
  intros [k' v'] s Hin Hs. rewrite <- Hs. simpl. apply py_setattr_other.
  intros ->. apply Hk. change k with (fst (k, v')). now apply in_map.
Qed.

(** The inner loop of the merge binds every key of the table. *)
Lemma setattr_loop_binds settings k v :
  NoDup (keys settings) ->
  In (k, v) settings ->
  prefix "__" k = false ->
  forall ns ns',
    for_each (fun kv => py_setattr R (fst kv) (snd kv)) settings ns
    = (ns', Ok tt) ->
    lookup k ns' = Some v.
Proof.
  intros Hnd Hin Hk.
  induction settings as [|[k0 v0] rest IH]; [easy|].
  intros ns ns'. rewrite for_each_cons. cbn [fst snd].
  destruct (py_setattr R k0 v0 ns) as [ns1 [[]|e|w]] eqn:E1;
    try discriminate.
  intros Hrest. inversion Hnd as [|? ? Hnot Hnd']; subst.
  destruct Hin as [[= -> ->]|Hin].
  - assert (Ens1 : ns1 = dict_set k v ns).
    { revert E1. unfold py_setattr. rewrite Hk. now intros [= <-]. }
    subst ns1. rewrite <- (lookup_dict_set_eq k v ns).
    replace ns' with
      (fst (for_each (fun kv => py_setattr R (fst kv) (snd kv)) rest
              (dict_set k v ns))) by now rewrite Hrest.
    now apply setattr_loop_other.
  - now apply (IH Hnd' Hin ns1 ns').
Qed.

Lemma merge_binds doc s settings k v :
  NoDup (map fst doc) ->
  ~ In "section" (map fst doc) ->
  In (section_name s, settings) doc ->
  NoDup (keys settings) ->
  In (k, v) settings ->
  prefix "__" k = false ->
  forall st st',
    merge R doc st = (st', Ok tt) ->
    lookup k (ns_of (reg st') s) = Some v.
Proof.
  intros Hnd Hsec Hin Hks Hkv Hk.
  induction doc as [|[name tbl] rest IH]; [easy|].
  intros st st'. unfold merge. rewrite for_each_cons.
  destruct (merge_entry R (name, tbl) st) as [st1 [[]|e|w]] eqn:E1;
    try discriminate.
  intros Hrest. inversion Hnd as [|? ? Hnot Hnd']; subst.
  assert (Hsec' : ~ In "section" (map fst rest))
    by (intros H; apply Hsec; now right).
  destruct Hin as [[= -> ->]|Hin].
  - assert (Hs : lookup k (ns_of (reg st1) s) = Some v).
    { revert E1. rewrite merge_entry_section.
      destruct (for_each _ settings (ns_of (reg st) s)) as [ns' res] eqn:E2.
      intros [= <- ->]. cbn [reg]. rewrite ns_of_with_ns.
      now apply (setattr_loop_binds settings k v Hks Hkv Hk
                   (ns_of (reg st) s)). }
    rewrite <- Hs.
    replace st' with (fst (for_each (merge_entry R) rest st1))
      by now rewrite Hrest.
    apply for_each_preserves
      with (P := fun x => lookup k (ns_of (reg x) s)
                          = lookup k (ns_of (reg st1) s)); [|easy].
    intros [n t] x Hin' Hx. rewrite <- Hx. f_equal.
    apply merge_entry_other.
    + intros ->. apply Hnot.
      change (section_name s) with (fst (section_name s, t)).
      now apply in_map.
    + intros ->. apply Hsec'.
      change "section" with (fst ("section", t)). now apply in_map.
  - now apply (IH Hnd' Hsec' Hin st1 st').
Qed.

End MergeFacts.

(** C7: when the merge of a settings file returns, every key of the table
    of a section (other than the interpreter's double-underscore names) is
    bound on that section to the value of the file, unchanged.  Nothing is
    asked of the key: it need not be an attribute of the section before, and
    it may be path-typed.  The file is taken to have no table named
    [section]: that name resolves to the section merged in the turn before,
    whose keys such a table would assign again. *)
Theorem merge_assigns_directly (R : runtime) (doc : document)
    (r r' : registry) (s : section) (settings : namespace)
    (k : string) (v : value) :
  NoDup (map fst doc) ->
  ~ In "section" (map fst doc) ->
  In (section_name s, settings) doc ->
  NoDup (keys settings) ->
  In (k, v) settings ->
  prefix "__" k = false ->
  merge_file R doc r = (r', Ok tt) ->
  lookup k (ns_of r' s) = Some v.
Proof.
  intros Hnd Hsec Hin Hks Hkv Hk. unfold merge_file.
  destruct (merge R doc (begin_merge r)) as [st res] eqn:E.
  intros [= <- ->].
  now apply (merge_binds R doc s settings k v Hnd Hsec Hin Hks Hkv Hk
               (begin_merge r) st).
Qed.

(** C8, as the code has it: a section name that is not bound in the module
    when its turn comes stops the merge with [AttributeError]; the entries
    before it stay applied and those after it are not read. *)
Theorem merge_unbound_name_raises (R : runtime) (doc1 doc2 : document)
    (name : string) (settings : namespace) (r : registry) (st1 : merging) :
  merge R doc1 (begin_merge r) = (st1, Ok tt) ->
  module_getattr R st1 name = None ->
  merge_file R (doc1 ++ (name, settings) :: doc2)%list r
  = (reg st1, Raise AttributeError).
Proof.
  intros H1 Hname. unfold merge_file, merge in *.
  rewrite (for_each_app _ _ _ _ _ H1), for_each_cons.
  unfold merge_entry, bind, bind_section. now rewrite Hname.
Qed.

Lemma merge_assigns_directly_witness :
  lookup "brand_new"
    (ns_of
       (fst (merge_file cpython
               [("execution",
                 [("plugin", VStr "MultiProc"); ("brand_new", VStr "rel/path")])]
               (declared cpython)))
       Execution)
  = Some (VStr "rel/path").
Proof.
  apply (merge_assigns_directly cpython
           [("execution",
             [("plugin", VStr "MultiProc"); ("brand_new", VStr "rel/path")])]
           (declared cpython) _ Execution
           [("plugin", VStr "MultiProc"); ("brand_new", VStr "rel/path")]
           "brand_new" (VStr "rel/path")); try reflexivity.
  - apply distinct_NoDup. reflexivity.
  - simpl. intuition discriminate.
  - now left.
  - apply distinct_NoDup. reflexivity.
  - right. now left.
Defined.

Lemma merge_unbound_name_raises_witness :
  merge_file cpython
    ([("execution", [("plugin", VStr "MultiProc")])]
       ++ ("workflow", [("plugin", VStr "Linear")])
       :: [("check", [("interval", VInt 5)])])%list
    (declared cpython)
  = (reg (fst (merge cpython [("execution", [("plugin", VStr "MultiProc")])]
                 (begin_merge (declared cpython)))),
     Raise AttributeError).
Proof.
  apply merge_unbound_name_raises; reflexivity.
Defined.

(** C8, as the claim has it, fails: [os] is none of the four sections, yet a
    table of that name raises nothing and the merge goes on. *)
Lemma merge_accepts_module_global :
  ~ In "os" (map section_name sections) /\
  merge_file cpython
    [("os", []); ("execution", [("plugin", VStr "MultiProc")])]
    (declared cpython)
  = (with_ns (declared cpython) Execution
       (dict_set "plugin" (VStr "MultiProc") (execution (declared cpython))),
     Ok tt).
Proof.
  split; [simpl; intuition discriminate | reflexivity].
Qed.

(** ** Round trip through the document *)



Lemma lookup_update_all tbl :
  NoDup (keys tbl) ->
  forall ns k,
    lookup k (update_all tbl ns) =
    match lookup k tbl with Some v => Some v | None => lookup k ns end.
Proof.
  induction tbl as [|[k0 v0] rest IH]; intros Hnd ns k; [easy|].
  inversion Hnd as [|? ? Hnot Hnd']; subst.
  change (update_all ((k0, v0) :: rest) ns)
    with (update_all rest (dict_set k0 v0 ns)).
  rewrite (IH Hnd'). simpl.
  destruct (k0 =? k) eqn:E.
  - apply String.eqb_eq in E. subst k0.
    apply lookup_None in Hnot. rewrite Hnot. apply lookup_dict_set_eq.
  - apply String.eqb_neq in E.
    now rewrite (lookup_dict_set_neq k0 k v0 ns E).
Qed.


Section RoundTrip.

Context (R : runtime).





Lemma lookup_hidden ns0 ns k :
  ~ In k (keys ns) ->
  lookup k (map (report R ns0) (filter visible ns)) = None.
Proof.
  intros Hk. apply lookup_None. rewrite keys_report. unfold keys.
  intros Hin. apply Hk. apply in_map_iff in Hin as [kv [<- Hin]].
  apply filter_In in Hin as [Hin _]. now apply in_map.
Qed.

Lemma lookup_report ns0 ns k :
  NoDup (keys ns) ->
  lookup k (map (report R ns0) (filter visible ns)) =
  match lookup k ns with
  | Some v => if visible (k, v) then Some (rendered R ns0 (k, v)) else None
  | None => None
  end.
Proof.
  induction ns as [|[k0 v0] rest IH]; intros Hnd; [easy|].
  inversion Hnd as [|? ? Hnot Hnd']; subst. cbn [filter lookup].
  destruct (k0 =? k) eqn:E.
  - apply String.eqb_eq in E. subst k0.
    destruct (visible (k, v0)); [simpl; now rewrite String.eqb_refl|].
    now apply lookup_hidden.
  - destruct (visible (k0, v0)); [simpl; rewrite E|]; now apply IH.
Qed.

Lemma invoke_get_inv ns out :
  invoke_get R ns = Ok out -> lookup "get" ns = None /\ get R ns = Ok out.
Proof.
  unfold invoke_get. destruct (lookup "get" ns) as [v|]; [|easy].
  now destruct (callable v).
Qed.

Lemma module_str_inv r doc :
  module_str R r = Ok doc ->
  exists o1 o2 o3 o4,
    invoke_get R (logging r) = Ok o1 /\
    invoke_get R (execution r) = Ok o2 /\
    invoke_get R (monitoring r) = Ok o3 /\
    invoke_get R (check r) = Ok o4 /\
    doc = [("logging", o1); ("execution", o2); ("monitoring", o3);
           ("check", o4)].
Proof.
  unfold module_str, sections. cbn [dump_sections ns_of section_name].
  destruct (invoke_get R (logging r)) as [o1|e|w]; try discriminate.
  destruct (invoke_get R (execution r)) as [o2|e|w]; try discriminate.
  destruct (invoke_get R (monitoring r)) as [o3|e|w]; try discriminate.
  destruct (invoke_get R (check r)) as [o4|e|w]; try discriminate.
  intros [= <-]. now exists o1, o2, o3, o4.
Qed.

(** What a snapshot [out] of the namespace [ns] looks like. *)
Lemma snapshot_facts ns out :
  NoDup (keys ns) ->
  get R ns = Ok out ->
  NoDup (keys out) /\
  (forall k v, lookup k out = Some v ->
               visible (k, v) = true /\ lookup k ns <> None) /\
  (forall k, prefix "_" k = false -> reports ns k = true ->
             lookup k out <> None).
Proof.
  intros Hnd Hget. apply (get_sound R ns out Hnd) in Hget. subst out.
  split; [rewrite keys_report; now apply NoDup_keys_filter|]. split.
  - intros k v. rewrite (lookup_report ns ns k Hnd).
    destruct (lookup k ns) as [v0|]; [|discriminate].
    destruct (visible (k, v0)) eqn:Ev; [|discriminate].
    intros [= <-]. split; [|easy].
    unfold rendered. simpl.
    destruct (in_paths R ns k) as [[|]|e|w]; try easy.
    apply visible_spec in Ev as (H1 & _). apply visible_spec.
    now repeat split.
  - intros k Hk. unfold reports. rewrite (lookup_report ns ns k Hnd).
    destruct (lookup k ns) as [v0|]; [|discriminate].
    intros Hv. apply andb_prop in Hv as [H1 H2].
    unfold visible. simpl. now rewrite Hk, H1, H2.
Qed.


End RoundTrip.




(** ** Declared defaults *)

Section DefaultFacts.

Context (R : runtime).

Lemma body_distinct s : distinct (keys (body R s)) = true.
Proof. now destruct s. Qed.

Lemma declared_lookup s k d :
  In (k, d) (settings_of R s) -> lookup k (ns_of (declared R) s) = Some d.
Proof.
  intros Hin.
  assert (E : ns_of (declared R) s = update_all (body R s) [])
    by now destruct s.
  pose proof (distinct_NoDup _ (body_distinct s)) as Hnd.
  rewrite E, (lookup_update_all _ Hnd).
  assert (Hb : In (k, d) (body R s))
    by (destruct s; right; right; exact Hin).
  now rewrite (In_lookup _ _ _ Hnd Hb).
Qed.

(** The merge leaves alone what the file does not assign. *)
Lemma merge_keeps_unassigned s k doc :
  (forall name tbl, In (name, tbl) doc ->
     name = section_name s \/ name = "section" -> ~ In k (keys tbl)) ->
  forall st,
    lookup k (ns_of (reg (fst (merge R doc st))) s)
    = lookup k (ns_of (reg st) s).
Proof.
  intros Hdoc st.
  apply for_each_preserves
    with (P := fun x => lookup k (ns_of (reg x) s)
                        = lookup k (ns_of (reg st) s)); [|easy].
  intros [name tbl] x Hin Hx. rewrite <- Hx.
  unfold merge_entry, bind, bind_section.
  destruct (module_getattr R x name) as [[s'|n]|] eqn:E; [| |easy].
  - rewrite assign_loop. cbn [reg].
    destruct (for_each (fun kv => py_setattr R (fst kv) (snd kv)) tbl
                (ns_of (reg x) s')) as [ns' res] eqn:E'.
    simpl. destruct (section_eq_dec s' s) as [->|Hne].
    + rewrite ns_of_with_ns.
      replace ns' with
        (fst (for_each (fun kv => py_setattr R (fst kv) (snd kv)) tbl
                (ns_of (reg x) s))) by now rewrite E'.
      apply setattr_loop_other. apply (Hdoc name tbl Hin).
      now apply module_getattr_Sect in E.
    + now rewrite ns_of_with_ns_other.
  - destruct tbl as [|kv rest]; [easy|].
    rewrite for_each_cons. reflexivity.
Qed.

End DefaultFacts.

(** C3, as the code has it: after import and before any call of [load],
    every setting [k] that a section declares and that the settings file
    (if there is one) does not assign, in the table of that section or in a
    table named [section], is present and reads as its declared default [d];
    with no settings file [execution.plugin] is ["Linear"] and
    [monitoring.enabled] is [False]. *)
Theorem sections_hold_defaults (R : runtime) (cfg : option document)
    (s : section) (k : string) (d : value) :
  In (k, d) (settings_of R s) ->
  (forall name tbl, In (name, tbl) (tables cfg) ->
     name = section_name s \/ name = "section" -> ~ In k (keys tbl)) ->
  py_hasattr R (ns_of (fst (startup R cfg)) s) k = true /\
  getattr_value R (ns_of (fst (startup R cfg)) s) k = Ok d /\
  getattr_value R (execution (fst (startup R None))) "plugin"
  = Ok (VStr "Linear") /\
  getattr_value R (monitoring (fst (startup R None))) "enabled"
  = Ok (VBool false).
Proof.
  intros Hin Hcfg.
  assert (H : lookup k (ns_of (fst (startup R cfg)) s) = Some d).
  { destruct cfg as [doc|]; simpl.
    - unfold merge_file.
      pose proof (merge_keeps_unassigned R s k doc Hcfg
                    (begin_merge (declared R))) as Hm.
      destruct (merge R doc (begin_merge (declared R))) as [st res].
      simpl in *. rewrite Hm. now apply declared_lookup.
    - now apply declared_lookup. }
  unfold py_hasattr, getattr_value, class_getattr. rewrite H.
  repeat split; reflexivity.
Qed.

Lemma sections_hold_defaults_witness :
  py_hasattr cpython
    (ns_of (fst (startup cpython
                   (Some [("execution", [("plugin", VStr "MultiProc")])])))
           Execution) "keep_inputs" = true /\
  getattr_value cpython
    (ns_of (fst (startup cpython
                   (Some [("execution", [("plugin", VStr "MultiProc")])])))
           Execution) "keep_inputs" = Ok (VBool false) /\
  getattr_value cpython (execution (fst (startup cpython None))) "plugin"
  = Ok (VStr "Linear") /\
  getattr_value cpython (monitoring (fst (startup cpython None))) "enabled"
  = Ok (VBool false).
Proof.
  apply (sections_hold_defaults cpython
           (Some [("execution", [("plugin", VStr "MultiProc")])])
           Execution "keep_inputs" (VBool false)).
  - repeat (first [left; reflexivity | right]).
  - intros name tbl [[= <- <-]|[]] _. simpl. intuition discriminate.
Defined.

(** C3, as the claim has it, fails: with a settings file that assigns
    [plugin], [execution.plugin] is not its declared default after import,
    though [load] was never called. *)
Lemma settings_file_overrides_default :
  In ("plugin", VStr "Linear") (settings_of cpython Execution) /\
  getattr_value cpython
    (execution
       (fst (startup cpython
               (Some [("execution", [("plugin", VStr "MultiProc")])]))))
    "plugin"
  = Ok (VStr "MultiProc").
Proof.
  split; [repeat (first [left; reflexivity | right]) | reflexivity].
Qed.

(** ** The logging bootstrap *)

Lemma level_of_set_level_eq n z l :
  PyLogging.level_of n (PyLogging.set_level n z l) = Some z.
Proof.
  induction l as [|[n' z'] l IH]; simpl.
  - now rewrite String.eqb_refl.
  - destruct (n' =? n) eqn:E; simpl.
    + now rewrite String.eqb_refl.
    + now rewrite E.
Qed.

Lemma level_of_set_level_neq n n' z l :
  n <> n' ->
  PyLogging.level_of n' (PyLogging.set_level n z l) = PyLogging.level_of n' l.
Proof.
  intros Hne. apply String.eqb_neq in Hne.
  induction l as [|[n0 z0] l IH]; simpl.
  - now rewrite Hne.
  - destruct (n0 =? n) eqn:E; simpl.
    + apply String.eqb_eq in E. subst n0. now rewrite Hne.
    + destruct (n0 =? n'); [easy | apply IH].
Qed.

Section BootstrapFacts.

Context (R : runtime).

(** A usable level setting gives its sub-logger that level. *)
Lemma set_from_ok logger k ns z L :
  sublevel R ns k = Ok z ->
  set_from R logger k ns L =
  ({| PyLogging.capture := PyLogging.capture L;
      PyLogging.root_level := PyLogging.root_level L;
      PyLogging.root_handlers := PyLogging.root_handlers L;
      PyLogging.logger_levels :=
        PyLogging.set_level logger z (PyLogging.logger_levels L) |}, Ok tt).
Proof.
  unfold sublevel, set_from, bind, lift, PyLogging.setLevel.
  destruct (getattr_value R ns k) as [v|e|w]; try discriminate.
  destruct (getLevelName R v) as [n|e|w]; try discriminate.
  now intros ->.
Qed.

(** One call of [update] on usable settings: it returns, the workflow
    logger has the level of the setting, and the root logger carries one
    rotating handler when file logging is on and none otherwise, whatever
    was attached before. *)
Lemma update_ok ns L zw t :
  bootable R ns ->
  sublevel R ns "workflow_level" = Ok zw ->
  getattr_value R ns "log_to_file" = Ok t ->
  exists L',
    update R ns L = (L', Ok tt) /\
    PyLogging.level_of "nipype.workflow" (PyLogging.logger_levels L')
    = Some zw /\
    List.length (filter PyLogging.is_rotating (PyLogging.root_handlers L'))
    = if truthy t then 1 else 0.
Proof.
  intros (_ & [zu Hu] & [zi Hi] & [t' [Ht' Hh]]) Hw Ht.
  rewrite Ht in Ht'. injection Ht' as <-.
  unfold update, bind at 1, PyLogging.captureWarnings.
  unfold bind at 1, PyLogging.basicConfig.
  unfold bind at 1. rewrite (set_from_ok _ _ _ _ _ Hw).
  unfold bind at 1. rewrite (set_from_ok _ _ _ _ _ Hu).
  unfold bind at 1. rewrite (set_from_ok _ _ _ _ _ Hi).
  unfold bind at 1, lift at 1. rewrite Ht.
  destruct (truthy t) eqn:Et.
  - destruct (Hh eq_refl) as [h Hmk].
    unfold bind, lift, PyLogging.addHandler. rewrite Hmk.
    eexists. split; [reflexivity|]. cbn [PyLogging.logger_levels
      PyLogging.root_handlers]. split.
    + rewrite !level_of_set_level_neq by discriminate.
      apply level_of_set_level_eq.
    + revert Hmk. unfold make_handler, RFHandler.
      destruct (getattr_value R ns "log_directory"); try discriminate.
      destruct (Path_of a); try discriminate.
      destruct (getattr_value R ns "log_size") as [size| |];
        try discriminate.
      destruct (getattr_value R ns "log_rotate"); try discriminate.
      destruct size; try discriminate;
        (destruct (can_open R _); [|discriminate]); now intros [= <-].
  - unfold ret. eexists. split; [reflexivity|]. cbn [PyLogging.logger_levels
      PyLogging.root_handlers]. split; [|reflexivity].
    rewrite !level_of_set_level_neq by discriminate.
    apply level_of_set_level_eq.
Qed.

End BootstrapFacts.

(** C10: with settings the logging library accepts at both calls, two calls
    of [update] in a row return; afterwards the logger [nipype.workflow] has
    the severity of the second [workflow_level], and the root logger carries
    exactly one rotating file handler when [log_to_file] is true at the
    second call (so also when it is true at both), none otherwise: what the
    first call attached is replaced, not kept. *)
Theorem update_twice_takes_second (R : runtime) (ns1 ns2 : namespace)
    (L0 : PyLogging.state) (z2 : Z) (t2 : value) :
  bootable R ns1 ->
  bootable R ns2 ->
  sublevel R ns2 "workflow_level" = Ok z2 ->
  getattr_value R ns2 "log_to_file" = Ok t2 ->
  exists L1 L2,
    update R ns1 L0 = (L1, Ok tt) /\
    update R ns2 L1 = (L2, Ok tt) /\
    PyLogging.level_of "nipype.workflow" (PyLogging.logger_levels L2)
    = Some z2 /\
    List.length (filter PyLogging.is_rotating (PyLogging.root_handlers L2))
    = if truthy t2 then 1 else 0.
Proof.
  intros B1 B2 Hw Ht.
  destruct B1 as ([z1 Hw1] & Hu1 & Hi1 & [t1 [Ht1 Hh1]]).
  destruct (update_ok R ns1 L0 z1 t1) as (L1 & E1 & _); try easy.
  { repeat split; eauto. }
  destruct (update_ok R ns2 L1 z2 t2 B2 Hw Ht) as (L2 & E2 & Hl & Hc).
  now exists L1, L2.
Qed.

Lemma update_twice_takes_second_witness :
  exists L1 L2,
    update cpython (logging registry_multiproc) logging_unconfigured
    = (L1, Ok tt) /\
    update cpython logging_debug L1 = (L2, Ok tt) /\
    PyLogging.level_of "nipype.workflow" (PyLogging.logger_levels L2)
    = Some 10%Z /\
    List.length (filter PyLogging.is_rotating (PyLogging.root_handlers L2))
    = if truthy (VBool true) then 1 else 0.
Proof.
  apply (update_twice_takes_second cpython (logging registry_multiproc)
           logging_debug logging_unconfigured 10%Z (VBool true));
    try reflexivity;
    (repeat split; eexists; try reflexivity; split; [reflexivity|];
     intros _; eexists; reflexivity).
Defined.

(** C10, as the claim has it, fails: [workflow_level] can hold a value the
    logging library does not know as a level; the second call of [update]
    then raises, and the logger keeps the level of the first call. *)
Lemma update_rejects_unknown_level :
  exists L1 L2,
    update cpython (logging (declared cpython)) logging_unconfigured
    = (L1, Ok tt) /\
    getattr_value cpython logging_verbose "workflow_level"
    = Ok (VStr "VERBOSE") /\
    update cpython logging_verbose L1 = (L2, Raise ValueError) /\
    PyLogging.level_of "nipype.workflow" (PyLogging.logger_levels L2)
    = Some 20%Z.
Proof.
  do 2 eexists. repeat split; reflexivity.
Qed.

(** ** Further properties of [load] *)

Lemma dict_set_same k v ns : lookup k ns = Some v -> dict_set k v ns = ns.
Proof.
  induction ns as [|[k' v'] ns IH]; simpl; [discriminate|].
  destruct (k' =? k) eqn:E.
  - apply String.eqb_eq in E. subst k'. now intros [= ->].
  - intros H. now rewrite IH.
Qed.

Lemma lookup_dict_set_bound k k' v ns :
  lookup k' ns <> None -> lookup k' (dict_set k v ns) <> None.
Proof.
  destruct (string_dec k k') as [->|Hne].
  - rewrite lookup_dict_set_eq. discriminate.
  - now rewrite lookup_dict_set_neq.
Qed.

Section LoadMore.

Context (R : runtime).

Lemma py_setattr_bound k v ns k' :
  lookup k' ns <> None -> lookup k' (fst (py_setattr R k v ns)) <> None.
Proof.
  unfold py_setattr.
  destruct (prefix "__" k); [destruct (type_setattr R k v)|]; simpl;
    try easy; now apply lookup_dict_set_bound.
Qed.

Lemma load_item_bound kv ns k' :
  lookup k' ns <> None -> lookup k' (fst (load_item R kv ns)) <> None.
Proof.
  destruct kv as [k v]. intros H. unfold load_item, bind, lift, gets, ret.
  destruct (is_none v); [easy|].
  destruct (in_paths R ns k) as [[|]|e|w]; simpl; try easy.
  - destruct (Path_of v); simpl; try easy. now apply py_setattr_bound.
  - destruct (py_hasattr R ns k); [now apply py_setattr_bound | easy].
Qed.



(** Assigning a name that already resolves changes no answer of [hasattr]. *)
Lemma py_setattr_resolution k v ns :
  py_hasattr R ns k = true ->
  forall k', py_hasattr R (fst (py_setattr R k v ns)) k' = py_hasattr R ns k'.
Proof.
  intros Hk k'.
  assert (Hset : py_hasattr R (dict_set k v ns) k' = py_hasattr R ns k').
  { destruct (string_dec k k') as [<-|Hne].
    - rewrite Hk. unfold py_hasattr, class_getattr.
      now rewrite lookup_dict_set_eq.
    - unfold py_hasattr.
      now rewrite (class_getattr_lookup R ns (dict_set k v ns) k'
                     (lookup_dict_set_neq k k' v ns Hne)). }
  unfold py_setattr.
  destruct (prefix "__" k); [destruct (type_setattr R k v)|]; simpl; easy.
Qed.

Lemma verbatim_item_resolution kv ns k' :
  py_hasattr R (fst (verbatim_item R kv ns)) k' = py_hasattr R ns k'.
Proof.
  destruct kv as [k v]. unfold verbatim_item, bind, gets, ret.
  destruct (is_none v); [easy|].
  destruct (py_hasattr R ns k) eqn:E; [now apply py_setattr_resolution | easy].
Qed.

Lemma verbatim_item_other k v ns k' :
  k <> k' -> lookup k' (fst (verbatim_item R (k, v) ns)) = lookup k' ns.
Proof.
  intros Hne. unfold verbatim_item, bind, gets, ret.
  destruct (is_none v); [easy|].
  destruct (py_hasattr R ns k); [now apply py_setattr_other | easy].
Qed.



(** The loop without the path branch binds a key that resolves. *)
Lemma verbatim_binds settings k v :
  NoDup (keys settings) ->
  In (k, v) settings ->
  v <> VNone ->
  prefix "__" k = false ->
  forall ns ns',
    py_hasattr R ns k = true ->
    for_each (verbatim_item R) settings ns = (ns', Ok tt) ->
    lookup k ns' = Some v.
Proof.
  intros Hnd Hin Hv Hk.
  induction settings as [|[k0 v0] rest IH]; [easy|].
  intros ns ns' Hh. rewrite for_each_cons.
  destruct (verbatim_item R (k0, v0) ns) as [ns1 [[]|e|w]] eqn:E1;
    try discriminate.
  intros Hrest. inversion Hnd as [|? ? Hnot Hnd']; subst.
  destruct Hin as [[= -> ->]|Hin].
  - assert (Ens1 : ns1 = dict_set k v ns).
    { revert E1. unfold verbatim_item, bind, gets, ret.
      replace (is_none v) with false by (now destruct v).
      rewrite Hh. unfold py_setattr. rewrite Hk. now intros [= <-]. }
    subst ns1. rewrite <- (lookup_dict_set_eq k v ns).
    replace ns' with
      (fst (for_each (verbatim_item R) rest (dict_set k v ns)))
      by now rewrite Hrest.
    apply for_each_preserves
      with (P := fun s => lookup k s = lookup k (dict_set k v ns)); [|easy].
    intros [k' v'] s Hin' Hs. rewrite <- Hs. apply verbatim_item_other.
    intros ->. apply Hnot. change k with (fst (k, v')). now apply in_map.
  - apply (IH Hnd' Hin ns1 ns'); [|easy].
    replace ns1 with (fst (verbatim_item R (k0, v0) ns)) by now rewrite E1.
    now rewrite verbatim_item_resolution.
Qed.


Lemma load_loop_verbatim settings init ns ns' :
  lookup "_paths" ns = None ->
  (forall v, In ("_paths", v) settings -> v = VNone) ->
  load R settings init ns = (ns', Ok tt) ->
  for_each (verbatim_item R) settings ns = (ns', Ok tt).
Proof.
  intros Hns Hs Hl. apply load_returns in Hl.
  now rewrite <- (load_without_paths R settings Hs ns Hns).
Qed.

(** Replaying one turn of [load] on a state that already holds its effect
    changes nothing. *)
Lemma load_item_replay k v s s1 t :
  load_item R (k, v) s = (s1, Ok tt) ->
  lookup "_paths" t = lookup "_paths" s ->
  lookup k t = lookup k s1 ->
  load_item R (k, v) t = (t, Ok tt).
Proof.
  intros Hrun Hp Hk.
  assert (Hset : forall x,
            py_setattr R k x s = (s1, Ok tt) -> py_setattr R k x t = (t, Ok tt)).
  { intros x. unfold py_setattr.
    assert (Hst : dict_set k x s = s1 -> dict_set k x t = t).
    { intros <-. apply dict_set_same. rewrite Hk. apply lookup_dict_set_eq. }
    destruct (prefix "__" k); [destruct (type_setattr R k x)|];
      try discriminate; intros [= E]; try (now rewrite (Hst E)); easy. }
  revert Hrun. unfold load_item, bind, lift, gets, ret.
  destruct (is_none v); [easy|].
  rewrite (in_paths_lookup R s t k Hp).
  destruct (in_paths R s k) as [[|]|e|w]; try discriminate.
  - destruct (Path_of v) as [p|e|w]; try discriminate. apply Hset.
  - destruct (py_hasattr R s k) eqn:Eh.
    + intros Hrun.
      assert (Et : py_hasattr R t k = true).
      { revert Hrun. unfold py_setattr, py_hasattr.
        destruct (prefix "__" k); [destruct (type_setattr R k v)|];
          try discriminate; intros [= <-];
          rewrite (class_getattr_lookup R _ t k Hk); try exact Eh;
          unfold class_getattr; now rewrite lookup_dict_set_eq. }
      rewrite Et. now apply Hset.
    + intros [= <-]. unfold py_hasattr in *.
      now rewrite (class_getattr_lookup R s t k Hk), Eh.
Qed.

Lemma load_loop_replay settings :
  NoDup (keys settings) ->
  ~ In "_paths" (keys settings) ->
  forall s ns1,
    for_each (load_item R) settings s = (ns1, Ok tt) ->
    forall t,
      (forall k, In k (keys settings) -> lookup k t = lookup k ns1) ->
      lookup "_paths" t = lookup "_paths" s ->
      for_each (load_item R) settings t = (t, Ok tt).
Proof.
  induction settings as [|[k v] rest IH]; intros Hnd Hp s ns1 Hrun t Ht Hpt;
    [easy|].
  rewrite for_each_cons in Hrun.
  destruct (load_item R (k, v) s) as [s1 [[]|e|w]] eqn:E1; try discriminate.
  inversion Hnd as [|? ? Hnot Hnd']; subst.
  assert (Hk1 : lookup k ns1 = lookup k s1).
  { replace ns1 with (fst (for_each (load_item R) rest s1))
      by now rewrite Hrun.
    apply for_each_preserves with (P := fun x => lookup k x = lookup k s1);
      [|easy].
    intros [k' v'] x Hin Hx. rewrite <- Hx. apply load_item_other.
    intros ->. apply Hnot. change k with (fst (k, v')). now apply in_map. }
  rewrite for_each_cons.
  rewrite (load_item_replay k v s s1 t E1 Hpt).
  - apply (IH Hnd') with (s := s1) (ns1 := ns1); try easy.
    + intros H. apply Hp. now right.
    + intros k' Hk'. apply Ht. now right.
    + rewrite Hpt. symmetry.
      replace s1 with (fst (load_item R (k, v) s)) by now rewrite E1.
      apply load_item_other. intros ->. apply Hp. now left.
  - rewrite <- Hk1. apply Ht. now left.
Qed.

End LoadMore.





(** X3: when [load] returns, a key that resolved on the section before, is
    not path-typed and was given a value holds exactly that value. *)
Theorem load_assigns_known_setting (R : runtime) (ns ns' settings : namespace)
    (init : bool) (k : string) (v : value) :
  NoDup (keys settings) ->
  In (k, v) settings ->
  v <> VNone ->
  lookup "_paths" ns = None ->
  (forall v', In ("_paths", v') settings -> v' = VNone) ->
  py_hasattr R ns k = true ->
  prefix "__" k = false ->
  load R settings init ns = (ns', Ok tt) ->
  lookup k ns' = Some v.
Proof.
  intros Hnd Hin Hv Hns Hs Hh Hk Hl.
  apply (load_loop_verbatim R settings init ns ns' Hns Hs) in Hl.
  now apply (verbatim_binds R settings k v Hnd Hin Hv Hk ns ns').
Qed.

Lemma load_assigns_known_setting_witness :
  lookup "plugin"
    (fst (load cpython [("plugin", VStr "MultiProc"); ("x", VInt 1)] true
            (execution (declared cpython))))
  = Some (VStr "MultiProc").
Proof.
  apply (load_assigns_known_setting cpython (execution (declared cpython)) _
           [("plugin", VStr "MultiProc"); ("x", VInt 1)] true "plugin"
           (VStr "MultiProc")); try reflexivity.
  - apply distinct_NoDup. reflexivity.
  - now left.
  - discriminate.
  - intros v [[=]|[[=]|[]]].
Defined.

(** X4: [load] is idempotent: when a call returns, the same call again
    returns and leaves the section as the first call left it (the override
    dictionary not rebinding [_paths]). *)
Theorem load_idempotent (R : runtime) (ns ns' settings : namespace)
    (init : bool) :
  NoDup (keys settings) ->
  ~ In "_paths" (keys settings) ->
  load R settings init ns = (ns', Ok tt) ->
  load R settings init ns' = (ns', Ok tt).
Proof.
  intros Hnd Hp Hl. pose proof (load_returns R settings init ns ns' Hl) as Hloop.
  assert (Hagain : for_each (load_item R) settings ns' = (ns', Ok tt)).
  { apply (load_loop_replay R settings Hnd Hp ns ns' Hloop ns'); [easy|].
    replace ns' with (fst (for_each (load_item R) settings ns))
      by now rewrite Hloop.
    apply for_each_preserves
      with (P := fun x => lookup "_paths" x = lookup "_paths" ns); [|easy].
    intros [k v] x Hin Hx. rewrite <- Hx. apply load_item_other.
    intros ->. apply Hp. change "_paths" with (fst ("_paths", v)).
    now apply in_map. }
  revert Hl. unfold load, bind. rewrite Hloop, Hagain. easy.
Qed.

Lemma load_idempotent_witness :
  load cpython [("crashdump_dir", VStr "out"); ("get", VInt 1)] true
    (fst (load cpython [("crashdump_dir", VStr "out"); ("get", VInt 1)] true
            execution_with_paths))
  = (fst (load cpython [("crashdump_dir", VStr "out"); ("get", VInt 1)] true
            execution_with_paths), Ok tt).
Proof.
  apply (load_idempotent cpython execution_with_paths).
  - apply distinct_NoDup. reflexivity.
  - simpl. intuition discriminate.
  - reflexivity.
Defined.

(** X5: [load] stops at the first path-typed key whose value is neither a
    string nor a path: it raises [TypeError], the entries before it stay
    applied and the entries after it are not read. *)
Theorem load_stops_at_bad_path (R : runtime) (ns ns1 pre post : namespace)
    (k : string) (v : value) (init : bool) :
  load R pre false ns = (ns1, Ok tt) ->
  in_paths R ns1 k = Ok true ->
  v <> VNone ->
  pathlike v = false ->
  load R (pre ++ (k, v) :: post)%list init ns = (ns1, Raise TypeError).
Proof.
  intros Hpre Hpt Hv Hpl. apply load_returns in Hpre.
  unfold load, bind.
  rewrite (for_each_app _ _ _ _ _ Hpre), for_each_cons.
  unfold load_item at 1, bind, lift.
  replace (is_none v) with false by (now destruct v).
  rewrite Hpt. now destruct v.
Qed.

Lemma load_stops_at_bad_path_witness :
  load cpython
    ([("plugin", VStr "SGE")] ++ ("crashdump_dir", VInt 3)
       :: [("keep_inputs", VBool true)])%list
    true execution_with_paths
  = (dict_set "plugin" (VStr "SGE") execution_with_paths, Raise TypeError).
Proof.
  apply load_stops_at_bad_path; try reflexivity. discriminate.
Defined.

(** X7: [load] never removes an attribute: a name bound on the section
    before the call is bound after it, whether the call returns or raises. *)
Theorem load_never_unbinds (R : runtime) (ns settings : namespace)
    (init : bool) (k : string) :
  lookup k ns <> None ->
  lookup k (fst (load R settings init ns)) <> None.
Proof.
  intros H. rewrite fst_load.
  apply for_each_preserves with (P := fun x => lookup k x <> None); [|easy].
  intros kv x _ Hx. now apply load_item_bound.
Qed.

Lemma load_never_unbinds_witness :
  lookup "interval"
    (fst (load cpython [("interval", VInt 5); ("_paths", VInt 0);
                        ("interval2", VStr "x")] true
            (check (declared cpython)))) <> None.
Proof.
  apply load_never_unbinds. discriminate.
Defined.

(** ** [load] followed by [get] *)



(** ** Further properties of the merge *)

Section MergeMore.

Context (R : runtime).

Lemma setattr_loop_bound tbl ns k :
  lookup k ns <> None ->
  lookup k (fst (for_each (fun kv => py_setattr R (fst kv) (snd kv)) tbl ns))
  <> None.
Proof.
  intros H.
  apply for_each_preserves with (P := fun x => lookup k x <> None); [|easy].
  intros kv x _ Hx. now apply py_setattr_bound.
Qed.

Lemma merge_entry_bound s k entry st :
  lookup k (ns_of (reg st) s) <> None ->
  lookup k (ns_of (reg (fst (merge_entry R entry st))) s) <> None.
Proof.
  destruct entry as [name tbl]. intros H.
  unfold merge_entry, bind, bind_section.
  destruct (module_getattr R st name) as [[s'|n]|]; [| |easy].
  - rewrite assign_loop. cbn [reg].
    pose proof (setattr_loop_bound tbl (ns_of (reg st) s') k) as Hb.
    destruct (for_each _ tbl (ns_of (reg st) s')) as [ns' res]. simpl in *.
    destruct (section_eq_dec s' s) as [->|Hne].
    + rewrite ns_of_with_ns. now apply Hb.
    + now rewrite ns_of_with_ns_other.
  - destruct tbl as [|kv rest]; [easy|].
    rewrite for_each_cons. exact H.
Qed.

Lemma merge_file_bound s k doc r :
  lookup k (ns_of r s) <> None ->
  lookup k (ns_of (fst (merge_file R doc r)) s) <> None.
Proof.
  intros H. unfold merge_file.
  assert (Hm : lookup k
                 (ns_of (reg (fst (merge R doc (begin_merge r)))) s) <> None).
  { apply for_each_preserves
      with (P := fun x => lookup k (ns_of (reg x) s) <> None); [|easy].
    intros entry x _ Hx. now apply merge_entry_bound. }
  now destruct (merge R doc (begin_merge r)).
Qed.

(** A table with plain keys is assigned entry by entry, without error. *)
Lemma setattr_loop_plain tbl :
  plain_keys tbl = true ->
  forall ns,
    for_each (fun kv => py_setattr R (fst kv) (snd kv)) tbl ns
    = (update_all tbl ns, Ok tt).
Proof.
  induction tbl as [|[k v] rest IH]; intros Hp ns; [easy|].
  simpl in Hp. apply andb_prop in Hp as [Hk Hrest].
  apply negb_true_iff in Hk.
  rewrite for_each_cons. cbn [fst snd]. unfold py_setattr. rewrite Hk.
  now apply IH.
Qed.

Lemma merge_entry_plain s tbl st :
  plain_keys tbl = true ->
  merge_entry R (section_name s, tbl) st
  = ({| reg := with_ns (reg st) s (update_all tbl (ns_of (reg st) s));
        var_section := Some (Sect s);
        var_key := match tbl with [] => var_key st | _ :: _ => true end |},
     Ok tt).
Proof.
  intros Hp. rewrite merge_entry_section.
  now rewrite (setattr_loop_plain tbl Hp).
Qed.

Lemma section_name_of name :
  existsb (String.eqb name) (map section_name sections) = true ->
  exists s, name = section_name s.
Proof.
  intros H. apply existsb_exists in H as [x [Hin Hx]].
  apply String.eqb_eq in Hx. subst x.
  apply in_map_iff in Hin as [s [<- _]]. now exists s.
Qed.

Lemma merge_wellformed doc :
  wellformed_document doc = true ->
  forall st, exists st', merge R doc st = (st', Ok tt).
Proof.
  induction doc as [|[name tbl] rest IH]; intros Hw st; [now exists st|].
  simpl in Hw. apply andb_prop in Hw as [Hentry Hrest].
  apply andb_prop in Hentry as [Hname Hplain].
  destruct (section_name_of name Hname) as [s ->].
  unfold merge. rewrite for_each_cons, (merge_entry_plain s tbl st Hplain).
  now apply IH.
Qed.



End MergeMore.

(** X8: whatever the settings file holds, and whether its merge returns or
    raises, every setting a section declares is present on the section after
    import. *)
Theorem startup_keeps_settings_present (R : runtime) (cfg : option document)
    (s : section) (k : string) (d : value) :
  In (k, d) (settings_of R s) ->
  py_hasattr R (ns_of (fst (startup R cfg)) s) k = true.
Proof.
  intros Hin.
  assert (H : lookup k (ns_of (fst (startup R cfg)) s) <> None).
  { destruct cfg as [doc|]; simpl.
    - apply merge_file_bound. rewrite (declared_lookup R s k d Hin).
      discriminate.
    - rewrite (declared_lookup R s k d Hin). discriminate. }
  unfold py_hasattr, class_getattr.
  now destruct (lookup k (ns_of (fst (startup R cfg)) s)).
Qed.

Lemma startup_keeps_settings_present_witness :
  py_hasattr cpython
    (ns_of (fst (startup cpython
                   (Some [("monitoring", [("enabled", VInt 7)]);
                          ("nowhere", [])])))
           Monitoring) "enabled" = true.
Proof.
  apply (startup_keeps_settings_present cpython _ Monitoring "enabled"
           (VBool false)).
  now left.
Defined.

(** X9: the merge of a settings file whose tables are all named after
    sections and whose keys are no double-underscore names always returns:
    no key and no value makes it raise. *)
Theorem merge_wellformed_returns (R : runtime) (doc : document)
    (r : registry) :
  wellformed_document doc = true ->
  exists r', merge_file R doc r = (r', Ok tt).
Proof.
  intros Hw. unfold merge_file.
  destruct (merge_wellformed R doc Hw (begin_merge r)) as [st' ->].
  now eexists.
Qed.

Lemma merge_wellformed_returns_witness :
  exists r',
    merge_file cpython
      [("check", [("interval", VStr "often"); ("load", VNone)]);
       ("logging", [("anything", VList [])])]
      (declared cpython)
    = (r', Ok tt).
Proof.
  apply merge_wellformed_returns. reflexivity.
Defined.

(** X10: a table named [section] is merged into the section of the table
    just before it, because the loop variable [section] is an attribute of
    the module; as the first table of the file it raises [AttributeError]. *)
Theorem merge_section_table_aliases (R : runtime) (r : registry)
    (s : section) (t1 t2 : namespace) (doc : document) :
  plain_keys t1 = true ->
  plain_keys t2 = true ->
  merge_file R [(section_name s, t1); ("section", t2)] r
  = (with_ns r s (update_all t2 (update_all t1 (ns_of r s))), Ok tt) /\
  merge_file R (("section", t2) :: doc) r = (r, Raise AttributeError).
Proof.
  intros H1 H2. split; [|reflexivity].
  unfold merge_file, merge.
  rewrite for_each_cons, (merge_entry_plain R s t1 _ H1). cbv beta iota.
  rewrite for_each_cons.
  unfold merge_entry, bind, bind_section.
  change (module_getattr R _ "section") with (Some (Sect s)).
  cbv beta iota. rewrite assign_loop. cbn [reg var_section var_key begin_merge].
  rewrite ns_of_with_ns, (setattr_loop_plain R t2 H2), with_ns_twice.
  reflexivity.
Qed.

Lemma merge_section_table_aliases_witness :
  merge_file cpython
    [("execution", [("plugin", VStr "SGE")]);
     ("section", [("plugin", VStr "PBS")])]
    (declared cpython)
  = (with_ns (declared cpython) Execution
       (update_all [("plugin", VStr "PBS")]
          (update_all [("plugin", VStr "SGE")]
             (ns_of (declared cpython) Execution))), Ok tt) /\
  merge_file cpython
    (("section", [("plugin", VStr "PBS")]) :: [("check", [])])
    (declared cpython)
  = (declared cpython, Raise AttributeError).
Proof.
  apply (merge_section_table_aliases cpython (declared cpython) Execution);
    reflexivity.
Defined.

(** ** Serialisation *)

Section StrMore.

Context (R : runtime).

Lemma snapshot_visible ns out :
  NoDup (keys ns) ->
  invoke_get R ns = Ok out ->
  forall k v, In (k, v) out -> visible (k, v) = true.
Proof.
  intros Hnd Hinv k v Hin. apply invoke_get_inv in Hinv as [_ Hget].
  destruct (snapshot_facts R ns out Hnd Hget) as (Hnd_out & Hvis & _).
  apply (In_lookup _ _ _ Hnd_out) in Hin. now apply Hvis in Hin.
Qed.

End StrMore.

(** X11: when [__str__] succeeds, the document it serialises has exactly the
    four section names as top-level keys, in the order logging, execution,
    monitoring, check, and every table holds only public names with values
    that are neither [None] nor callable. *)
Theorem module_str_schema (R : runtime) (r : registry) (doc : document) :
  (forall s, distinct (keys (ns_of r s)) = true) ->
  module_str R r = Ok doc ->
  map fst doc = ["logging"; "execution"; "monitoring"; "check"] /\
  forall name tbl k v,
    In (name, tbl) doc -> In (k, v) tbl ->
    prefix "_" k = false /\ v <> VNone /\ callable v = false.
Proof.
  intros Hnd Hstr.
  apply module_str_inv in Hstr
    as (o1 & o2 & o3 & o4 & H1 & H2 & H3 & H4 & ->).
  split; [reflexivity|].
  pose proof (fun s => distinct_NoDup _ (Hnd s)) as Hnd'.
  intros name tbl k v Hin Hkv. apply visible_spec.
  destruct Hin as [[= <- <-]|[[= <- <-]|[[= <- <-]|[[= <- <-]|[]]]]].
  - exact (snapshot_visible R _ _ (Hnd' Logging) H1 k v Hkv).
  - exact (snapshot_visible R _ _ (Hnd' Execution) H2 k v Hkv).
  - exact (snapshot_visible R _ _ (Hnd' Monitoring) H3 k v Hkv).
  - exact (snapshot_visible R _ _ (Hnd' Check) H4 k v Hkv).
Qed.

Lemma module_str_schema_witness :
  map fst snapshot_with_callable
  = ["logging"; "execution"; "monitoring"; "check"] /\
  forall name tbl k v,
    In (name, tbl) snapshot_with_callable -> In (k, v) tbl ->
    prefix "_" k = false /\ v <> VNone /\ callable v = false.
Proof.
  apply (module_str_schema cpython registry_with_callable).
  - intros []; reflexivity.
  - reflexivity.
Defined.



(** ** Further properties of the logging bootstrap *)

Lemma set_level_same n z l :
  PyLogging.level_of n l = Some z -> PyLogging.set_level n z l = l.
Proof.
  induction l as [|[n' z'] l IH]; simpl; [discriminate|].
  destruct (n' =? n) eqn:E.
  - apply String.eqb_eq in E. subst n'. now intros [= ->].
  - intros H. now rewrite IH.
Qed.


Section BootstrapMore.

Context (R : runtime).

(** A level setting that is rejected leaves the library as it is. *)
Lemma set_from_raise logger k ns e L :
  sublevel R ns k = Raise e ->
  set_from R logger k ns L = (L, Raise e).
Proof.
  unfold sublevel, set_from, bind, lift, PyLogging.setLevel.
  destruct (getattr_value R ns k) as [v|e'|w]; try discriminate;
    [|now intros [= ->]].
  destruct (getLevelName R v) as [n|e'|w]; try discriminate;
    [|now intros [= ->]].
  now intros ->.
Qed.

(** What a call of [update] on usable settings leaves behind. *)
Lemma update_closed ns L zw zu zi :
  bootable R ns ->
  sublevel R ns "workflow_level" = Ok zw ->
  sublevel R ns "utils_level" = Ok zu ->
  sublevel R ns "interface_level" = Ok zi ->
  update R ns L = (configured zw zu zi (file_handlers R ns) L, Ok tt).
Proof.
  intros (_ & _ & _ & [t [Ht Hh]]) Hw Hu Hi.
  unfold update, bind at 1, PyLogging.captureWarnings.
  unfold bind at 1, PyLogging.basicConfig.
  unfold bind at 1. rewrite (set_from_ok _ _ _ _ _ _ Hw).
  unfold bind at 1. rewrite (set_from_ok _ _ _ _ _ _ Hu).
  unfold bind at 1. rewrite (set_from_ok _ _ _ _ _ _ Hi).
  unfold bind at 1, lift at 1, file_handlers. rewrite Ht.
  destruct (truthy t) eqn:Et.
  - destruct (Hh eq_refl) as [h Hmk].
    unfold bind, lift, PyLogging.addHandler. now rewrite Hmk.
  - unfold ret, configured. cbn [PyLogging.capture PyLogging.root_level
      PyLogging.root_handlers PyLogging.logger_levels].
    now rewrite app_nil_r.
Qed.

Lemma configured_twice zw zu zi extra L :
  configured zw zu zi extra (configured zw zu zi extra L)
  = configured zw zu zi extra L.
Proof.
  unfold configured at 1. f_equal.
  cbn [PyLogging.logger_levels configured].
  set (X := PyLogging.set_level "nipype.interface" zi
              (PyLogging.set_level "nipype.utils" zu
                 (PyLogging.set_level "nipype.workflow" zw
                    (PyLogging.logger_levels L)))).
  assert (Hw : PyLogging.set_level "nipype.workflow" zw X = X).
  { apply set_level_same. unfold X.
    rewrite !level_of_set_level_neq by discriminate.
    apply level_of_set_level_eq. }
  assert (Hu : PyLogging.set_level "nipype.utils" zu X = X).
  { apply set_level_same. unfold X.
    rewrite level_of_set_level_neq by discriminate.
    apply level_of_set_level_eq. }
  assert (Hi : PyLogging.set_level "nipype.interface" zi X = X).
  { apply set_level_same. apply level_of_set_level_eq. }
  now rewrite Hw, Hu, Hi.
Qed.

End BootstrapMore.

(** X13: [update] is idempotent: on settings the logging library accepts, a
    call returns, and a second call with the same settings returns and
    leaves the library exactly as the first call left it. *)
Theorem update_idempotent (R : runtime) (ns : namespace)
    (L : PyLogging.state) :
  bootable R ns ->
  exists L1,
    update R ns L = (L1, Ok tt) /\ update R ns L1 = (L1, Ok tt).
Proof.
  intros B. pose proof B as ([zw Hw] & [zu Hu] & [zi Hi] & _).
  exists (configured zw zu zi (file_handlers R ns) L). split.
  - now apply update_closed.
  - rewrite (update_closed R ns _ zw zu zi B Hw Hu Hi).
    now rewrite configured_twice.
Qed.

Lemma update_idempotent_witness :
  exists L1,
    update cpython logging_debug logging_unconfigured = (L1, Ok tt) /\
    update cpython logging_debug L1 = (L1, Ok tt).
Proof.
  apply update_idempotent.
  repeat split; eexists; try reflexivity; split; [reflexivity|];
    intros _; eexists; reflexivity.
Defined.

(** X14: when [workflow_level] is a value the logging library rejects,
    [update] raises after it has reset the root logger: the console handler
    is the only handler left (a rotating file handler attached before is
    gone), and no sub-logger level has changed. *)
Theorem update_failure_resets_handlers (R : runtime) (ns : namespace)
    (L : PyLogging.state) (e : exn) :
  sublevel R ns "workflow_level" = Raise e ->
  update R ns L =
  ({| PyLogging.capture := true;
      PyLogging.root_level := 20;
      PyLogging.root_handlers := console_only;
      PyLogging.logger_levels := PyLogging.logger_levels L |}, Raise e).
Proof.
  intros Hw.
  unfold update, bind at 1, PyLogging.captureWarnings.
  unfold bind at 1, PyLogging.basicConfig.
  unfold bind at 1. now rewrite (set_from_raise R _ _ _ e _ Hw).
Qed.

Lemma update_failure_resets_handlers_witness :
  update cpython logging_verbose
    (fst (update cpython logging_debug logging_unconfigured))
  = ({| PyLogging.capture := true;
        PyLogging.root_level := 20;
        PyLogging.root_handlers := console_only;
        PyLogging.logger_levels :=
          PyLogging.logger_levels
            (fst (update cpython logging_debug logging_unconfigured)) |},
     Raise ValueError).
Proof.
  apply update_failure_resets_handlers. reflexivity.
Defined.





(** ** The home directory *)

Lemma to_string_absolute p :
  PosixPath.is_absolute p = true ->
  PosixPath.is_absolute (PosixPath.parse (PosixPath.to_string p)) = true.
Proof.
  unfold PosixPath.is_absolute, PosixPath.to_string, PosixPath.parse.
  destruct (PosixPath.anchor p); [discriminate| |]; intros _;
    cbn [PosixPath.root_string append PosixPath.splitroot];
    rewrite Ascii.eqb_refl;
    match goal with
    | |- context [if ?c then _ else _] => destruct c
    end; reflexivity.
Qed.

(** X17: when the working directory is absolute, as [os.getcwd()] gives it,
    the configuration home is an absolute path, and the defaults of
    [logging.log_directory] and [execution.crashdump_dir] are one and the
    same string, which reads back as an absolute path. *)
Theorem default_directories_absolute (R : runtime) :
  PosixPath.is_absolute (PosixPath.parse (getcwd R)) = true ->
  PosixPath.is_absolute (nipype_home R) = true /\
  exists s,
    lookup "log_directory" (logging (declared R)) = Some (VStr s) /\
    lookup "crashdump_dir" (execution (declared R)) = Some (VStr s) /\
    PosixPath.is_absolute (PosixPath.parse s) = true.
Proof.
  intros Hcwd.
  assert (Hhome : PosixPath.is_absolute (nipype_home R) = true)
    by now apply absolute_is_absolute.
  split; [exact Hhome|]. eexists. split; [reflexivity|].
  split; [reflexivity|].
  apply to_string_absolute. unfold PosixPath.join. cbn.
  exact Hhome.
Qed.

Lemma default_directories_absolute_witness :
  PosixPath.is_absolute (nipype_home cpython) = true /\
  exists s,
    lookup "log_directory" (logging (declared cpython)) = Some (VStr s) /\
    lookup "crashdump_dir" (execution (declared cpython)) = Some (VStr s) /\
    PosixPath.is_absolute (PosixPath.parse s) = true.
Proof.
  apply default_directories_absolute. reflexivity.
Defined.
